(** * flamechart: viewport, interaction and extents of the trace viewer

    A shallow embedding of the [Trace] React component of jsdf/flamechart in
    its two revisions found in the repository:

    - [src/src/Trace.js]: the component that delegates drawing to renderers
      and receives viewport changes through [_handleStateChange];
    - [src/unnamed/part_000]: the self-contained canvas/DOM component with its
      own mouse and wheel handlers.

    JavaScript numbers are modelled by [JS.num]: exact rationals extended with
    [NaN], [+Infinity] and [-Infinity].  Rounding is abstracted away, so the
    statements below are about which operations a handler performs, about
    order, and about values that no rounding changes, and an identity that
    rests on the laws of a field is stated as one of exact arithmetic.  Zero
    carries no sign: [Fin 0] stands for [+0], and a quotient by it is the
    quotient by [+0].  Where the sign of a zero divisor is not known, the
    statement distinguishes the values the quotient can take instead. *)

From Stdlib Require Import QArith Qcanon Field Lqa.
From stdpp Require Import base option list numbers strings sorting gmap.
From Equations Require Import Equations.

(** ** JavaScript values *)

Module JS.

Inductive num : Type :=
  | NaN
  | PosInf
  | NegInf
  | Fin (q : Qc).

Definition num_of_Z (z : Z) : num := Fin (Q2Qc (inject_Z z)).
Definition ratio (n : Z) (d : positive) : num := Fin (Q2Qc (n # d)).
Definition num_of_nat (n : nat) : num := num_of_Z (Z.of_nat n).

Definition Qc_ltb (x y : Qc) : bool :=
  match (x ?= y)%Qc with Lt => true | _ => false end.

(** [Number.isNaN] *)
Definition isNaN (a : num) : bool :=
  match a with NaN => true | _ => false end.

Definition isFinite (a : num) : bool :=
  match a with Fin _ => true | _ => false end.

(** unary [-] *)
Definition neg (a : num) : num :=
  match a with
  | NaN => NaN
  | PosInf => NegInf
  | NegInf => PosInf
  | Fin q => Fin (- q)%Qc
  end.

(** binary [+] *)
Definition add (a b : num) : num :=
  match a, b with
  | NaN, _ | _, NaN => NaN
  | PosInf, NegInf | NegInf, PosInf => NaN
  | PosInf, _ | _, PosInf => PosInf
  | NegInf, _ | _, NegInf => NegInf
  | Fin x, Fin y => Fin (x + y)%Qc
  end.

(** binary [-] *)
Definition sub (a b : num) : num := add a (neg b).

(** The sign of an infinite product or quotient: [flip] tells whether the
    finite operand is negative. *)
Definition signed_inf (negative flip : bool) : num :=
  if xorb negative flip then NegInf else PosInf.

(** binary [*] *)
Definition mul (a b : num) : num :=
  match a, b with
  | NaN, _ | _, NaN => NaN
  | PosInf, PosInf | NegInf, NegInf => PosInf
  | PosInf, NegInf | NegInf, PosInf => NegInf
  | PosInf, Fin y | Fin y, PosInf =>
      if Qc_eq_bool y 0 then NaN else signed_inf false (Qc_ltb y 0)
  | NegInf, Fin y | Fin y, NegInf =>
      if Qc_eq_bool y 0 then NaN else signed_inf true (Qc_ltb y 0)
  | Fin x, Fin y => Fin (x * y)%Qc
  end.

(** binary [/].  A zero divisor is [+0]: the quotient of a number that is
    not zero is the infinity of its sign.  The quotient by [-0], the
    infinity of the other sign, is not represented. *)
Definition div (a b : num) : num :=
  match a, b with
  | NaN, _ | _, NaN => NaN
  | (PosInf | NegInf), (PosInf | NegInf) => NaN
  | PosInf, Fin y => signed_inf false (Qc_ltb y 0)
  | NegInf, Fin y => signed_inf true (Qc_ltb y 0)
  | Fin _, (PosInf | NegInf) => Fin 0%Qc
  | Fin x, Fin y =>
      if Qc_eq_bool y 0 then
        if Qc_eq_bool x 0 then NaN else signed_inf false (Qc_ltb x 0)
      else Fin (x / y)%Qc
  end.

(** [a < b] *)
Definition lt (a b : num) : bool :=
  match a, b with
  | NaN, _ | _, NaN => false
  | _, NegInf => false
  | NegInf, _ => true
  | PosInf, _ => false
  | Fin _, PosInf => true
  | Fin x, Fin y => Qc_ltb x y
  end.

(** [a <= b] *)
Definition le (a b : num) : bool :=
  match a, b with
  | NaN, _ | _, NaN => false
  | _, _ => negb (lt b a)
  end.

(** [a === b] on numbers: [NaN] is equal to nothing, itself included. *)
Definition strict_eq (a b : num) : bool :=
  match a, b with
  | PosInf, PosInf | NegInf, NegInf => true
  | Fin x, Fin y => Qc_eq_bool x y
  | _, _ => false
  end.

(** [Math.max(a, b)] and [Math.min(a, b)] *)
Definition Math_max (a b : num) : num :=
  if isNaN a || isNaN b then NaN else if lt a b then b else a.

Definition Math_min (a b : num) : num :=
  if isNaN a || isNaN b then NaN else if lt b a then b else a.

(** Errors a handler can raise, and the completion of a computation that
    may raise one. *)
Inductive error : Type :=
  | TypeError.

Inductive completion (A : Type) : Type :=
  | Normal (a : A)
  | Throw (e : error).
Global Arguments Normal {A} a.
Global Arguments Throw {A} e.

Global Instance completion_ret : MRet completion := fun A a => Normal a.
Global Instance completion_bind : MBind completion := fun A B k c =>
  match c with
  | Normal a => k a
  | Throw e => Throw e
  end.

(** Reading a property of a value that may be [undefined]. *)
Definition prop_of {A B : Type} (f : A -> B) (o : option A) : completion B :=
  match o with
  | Some a => Normal (f a)
  | None => Throw TypeError
  end.

End JS.

Import JS.

Declare Scope js_scope.
Delimit Scope js_scope with js.
Bind Scope js_scope with num.
Notation "a + b" := (add a b) : js_scope.
Notation "a - b" := (sub a b) : js_scope.
Notation "a * b" := (mul a b) : js_scope.
Notation "a / b" := (div a b) : js_scope.
Notation "- a" := (neg a) : js_scope.
Notation "a <? b" := (lt a b) : js_scope.
Notation "a <=? b" := (le a b) : js_scope.
Notation "a === b" := (strict_eq a b)
  (at level 70, no associativity) : js_scope.

(** ** Data model shared by both revisions *)

Record Measure : Type := {
  name : string;
  startTime : num;
  duration : num;
  group : option string;
}.

(** A measure with the lane the layout engine gave it. *)
Record RenderableMeasure : Type := {
  measure : Measure;
  stackIndex : nat;
}.

Record Extents : Type := {
  startOffset : num;
  endOffset : num;
  size : num;
}.

Record Layout : Type := {
  width : num;
  height : num;
  x : num;
  y : num;
  inView : bool;
}.

(** [_getExtents], identical in both revisions once the renderable trace is
    at hand: [renderableTrace[0]] and [renderableTrace[length - 1]] are
    [undefined] on an empty array, and reading [.measure] of [undefined]
    raises a [TypeError]. *)
Definition extents_of (renderableTrace : list RenderableMeasure)
  : completion Extents :=
  first ← prop_of measure (renderableTrace !! 0%nat);
  let startOffset := startTime first in
  let last := renderableTrace !! (length renderableTrace - 1)%nat in
  last_measure ← prop_of measure last;
  let endOffset := (startTime last_measure + duration last_measure)%js in
  mret {| startOffset := startOffset;
          endOffset := endOffset;
          size := (endOffset - startOffset)%js |}.

(** The end time of a measure, and what the extents are meant to be: the
    least start time and the greatest end time of a trace ([Math.min] and
    [Math.max] over no value are [+Infinity] and [-Infinity]). *)
Definition endTime (m : Measure) : num := (startTime m + duration m)%js.

Definition min_start_time (l : list RenderableMeasure) : num :=
  foldr (fun m acc => Math_min (startTime (measure m)) acc) PosInf l.

Definition max_end_time (l : list RenderableMeasure) : num :=
  foldr (fun m acc => Math_max (endTime (measure m)) acc) NegInf l.

(** A renderable trace whose start times are numbers in ascending order. *)
Fixpoint sorted_from (prev : num) (l : list RenderableMeasure) : bool :=
  match l with
  | [] => true
  | m :: l' =>
      (prev <=? startTime (measure m))%js
      && sorted_from (startTime (measure m)) l'
  end.

Definition sorted_by_start (l : list RenderableMeasure) : bool :=
  match l with
  | [] => true
  | m :: _ => sorted_from (startTime (measure m)) l
  end.

(** ** The stacking layout engine *)

Module calculateTraceLayout.

(** A measure in flight through the engine: its position in the input and,
    once assigned, its lane. *)
Record Placed : Type := {
  index : nat;
  placed : Measure;
  lane : nat;
}.

(** Processing order: start time ascending, then duration descending. *)
Definition processed_before (a b : Placed) : bool :=
  (startTime (placed a) <? startTime (placed b))%js
  || ((startTime (placed a) === startTime (placed b))%js
      && (duration (placed b) <? duration (placed a))%js).

(** Output order: start time ascending, ties in the order of the input. *)
Definition output_before (a b : Placed) : bool :=
  (startTime (placed a) <? startTime (placed b))%js
  || ((startTime (placed a) === startTime (placed b))%js
      && (index a <? index b)%nat).

(** Stable insertion sort: [p] goes in front of the first element that is
    not strictly before it. *)
Fixpoint insert (before : Placed -> Placed -> bool) (p : Placed)
    (l : list Placed) : list Placed :=
  match l with
  | [] => [p]
  | q :: l' => if before q p then q :: insert before p l' else p :: q :: l'
  end.

Definition sort (before : Placed -> Placed -> bool) (l : list Placed)
  : list Placed :=
  foldr (insert before) [] l.

(** The lowest-indexed lane whose end time is at most [start]. *)
Fixpoint free_lane (lanes : list num) (start : num) : option nat :=
  match lanes with
  | [] => None
  | e :: lanes' =>
      if (e <=? start)%js then Some 0%nat
      else S <$> free_lane lanes' start
  end.

(** One step of the packer: the accumulator holds the end time of every open
    lane and the measures placed so far, latest first. *)
Definition place (acc : list num * list Placed) (p : Placed)
  : list num * list Placed :=
  let (lanes, placed_so_far) := acc in
  let i := default (length lanes) (free_lane lanes (startTime (placed p))) in
  let lanes' :=
    if decide (i < length lanes)%nat
    then <[i := endTime (placed p)]> lanes
    else lanes ++ [endTime (placed p)] in
  (lanes', {| index := index p; placed := placed p; lane := i |}
             :: placed_so_far).

Definition renderable (p : Placed) : RenderableMeasure :=
  {| measure := placed p; stackIndex := lane p |}.

(** Two consecutive elements of a sorted list are never the wrong way
    round. *)
Definition in_order (before : Placed -> Placed -> bool) (a b : Placed)
  : Prop :=
  before b a = false.

(** Modelled from the spec: the module [./calculateTraceLayout] imported as
    [transformTrace] is not among the sources.  Section 4.1 of the
    specification describes it: measures are processed by start time
    ascending and duration descending; each takes the lowest-indexed lane
    whose end time is at most its start time, or a new lane; the result is
    returned sorted by start time, ties in input order. *)
Definition transformTrace (measures : list Measure)
  : list RenderableMeasure :=
  let tagged :=
    imap (fun i m => {| index := i; placed := m; lane := 0 |}) measures in
  let '(_, placed_rev) :=
    foldl place ([], []) (sort processed_before tagged) in
  renderable <$> sort output_before placed_rev.

End calculateTraceLayout.

(** ** The canvas/DOM component of [src/unnamed/part_000] *)

Module Part000.

Definition BAR_HEIGHT : num := num_of_Z 16.
Definition BAR_Y_GUTTER : num := num_of_Z 1.
Definition BAR_X_GUTTER : num := num_of_Z 1.
Definition PX_PER_MS : num := num_of_Z 1.
Definition MIN_ZOOM : num := ratio 1 5.
Definition MAX_ZOOM : num := num_of_Z 100.
Definition TOOLTIP_OFFSET : num := num_of_Z 8.

Inductive Renderer : Type :=
  | canvas
  | dom.

Record Props : Type := {
  truncateLabels : bool;
  trace : list Measure;
  renderer : Renderer;
  viewportWidth : num;
  viewportHeight : num;
}.

Record State : Type := {
  center : num;
  dragging : bool;
  dragMoved : bool;
  hovered : option RenderableMeasure;
  selection : option RenderableMeasure;
  zoom : num;
}.

(** The tooltip [div]: its [style.left], [style.top] (in px) and text. *)
Record Tooltip : Type := {
  left : num;
  top : num;
  textContent : string;
}.

(** The component instance.  [_renderedShapes] is a [Map] keyed by freshly
    allocated layout objects, so it is the list of its entries in insertion
    order; [_canvas] tells whether the ref holds a canvas element and
    [_tooltip] holds the tooltip element when the ref is a [div]. *)
Record Component : Type := {
  props : Props;
  state : State;
  _canvas : bool;
  _renderedShapes : list (Layout * RenderableMeasure);
  _mouseX : num;
  _mouseY : num;
  _tooltip : option Tooltip;
}.

(** What the handlers read of a mouse or wheel event; [rect_left] and
    [rect_top] are those of [currentTarget.getBoundingClientRect()]. *)
Record MouseEvent : Type := {
  clientX : num;
  clientY : num;
  rect_left : num;
  rect_top : num;
  movementX : num;
  deltaY : num;
}.

(** [localStorage]: each stored item is represented by the number
    [parseFloat] reads from it ([NaN] when it reads none). *)
Definition Storage : Type := gmap string num.

(** Partial state updates, as [setState] merges them. *)
Definition set_center (v : num) (s : State) : State :=
  {| center := v; dragging := dragging s; dragMoved := dragMoved s;
     hovered := hovered s; selection := selection s; zoom := zoom s |}.
Definition set_zoom (v : num) (s : State) : State :=
  {| center := center s; dragging := dragging s; dragMoved := dragMoved s;
     hovered := hovered s; selection := selection s; zoom := v |}.
Definition set_dragging (v : bool) (s : State) : State :=
  {| center := center s; dragging := v; dragMoved := dragMoved s;
     hovered := hovered s; selection := selection s; zoom := zoom s |}.
Definition set_dragMoved (v : bool) (s : State) : State :=
  {| center := center s; dragging := dragging s; dragMoved := v;
     hovered := hovered s; selection := selection s; zoom := zoom s |}.
Definition set_hovered (v : option RenderableMeasure) (s : State) : State :=
  {| center := center s; dragging := dragging s; dragMoved := dragMoved s;
     hovered := v; selection := selection s; zoom := zoom s |}.
Definition set_selection (v : option RenderableMeasure) (s : State)
  : State :=
  {| center := center s; dragging := dragging s; dragMoved := dragMoved s;
     hovered := hovered s; selection := v; zoom := zoom s |}.

Definition setState (f : State -> State) (this : Component) : Component :=
  {| props := props this; state := f (state this);
     _canvas := _canvas this; _renderedShapes := _renderedShapes this;
     _mouseX := _mouseX this; _mouseY := _mouseY this;
     _tooltip := _tooltip this |}.

Definition loadValue (localStorage : Storage) (name : string)
    (defaultVal : num) : num :=
  match localStorage !! name with
  | Some parsed => if negb (isNaN parsed) then parsed else defaultVal
  | None => defaultVal
  end.

Section Component.

(** The layout engine imported from [./calculateTraceLayout], and
    [Number.prototype.toFixed]. *)
Variable transformTrace : list Measure -> list RenderableMeasure.
Variable toFixed : num -> nat -> string.

Definition _getExtents (p : Props) : completion Extents :=
  extents_of (transformTrace (trace p)).

Definition constructor (localStorage : Storage) (p : Props)
  : completion Component :=
  e ← _getExtents p;
  let zoom := loadValue localStorage "zoom" (num_of_Z 1) in
  mret {|
    props := p;
    state := {|
      dragging := false;
      dragMoved := false;
      selection := None;
      hovered := None;
      center :=
        loadValue localStorage "center"
          (startOffset e + viewportWidth p / PX_PER_MS / num_of_Z 2)%js;
      zoom := zoom |};
    _canvas := false;
    _renderedShapes := [];
    _mouseX := num_of_Z 0;
    _mouseY := num_of_Z 0;
    _tooltip := None |}.

Definition _clampCenter (this : Component) (updated : num)
  : completion num :=
  e ← _getExtents (props this);
  mret (Math_max (startOffset e) (Math_min (endOffset e) updated)).

Definition _clampZoom (updated : num) : num :=
  Math_max MIN_ZOOM (Math_min MAX_ZOOM updated).

Definition _handleZoom (this : Component) (updated : num) : Component :=
  setState (set_zoom (_clampZoom updated)) this.

Definition _handleCenter (this : Component) (updated : num)
  : completion Component :=
  c ← _clampCenter this updated;
  mret (setState (set_center c) this).

Definition _handleLeft (this : Component) : completion Component :=
  e ← _getExtents (props this);
  let updated :=
    (center (state this) - size e * ratio 1 100 / zoom (state this))%js in
  c ← _clampCenter this updated;
  mret (setState (set_center c) this).

Definition _handleRight (this : Component) : completion Component :=
  e ← _getExtents (props this);
  let updated :=
    (center (state this) + size e * ratio 1 100 / zoom (state this))%js in
  c ← _clampCenter this updated;
  mret (setState (set_center c) this).

(** [index] is [parseInt] of the clicked element's [data-index]. *)
Definition _handleMeasureClick (this : Component) (index : nat)
  : Component :=
  setState
    (set_selection (transformTrace (trace (props this)) !! index)) this.

Definition _getCanvasMousePos (event : MouseEvent) : num * num :=
  ((clientX event - rect_left event)%js,
   (clientY event - rect_top event)%js).

Definition _getIntersectingMeasure (this : Component) (event : MouseEvent)
  : option RenderableMeasure :=
  let (canvasMouseX, canvasMouseY) := _getCanvasMousePos event in
  let intersecting :=
    find (fun entry =>
            let l := fst entry in
            negb ((canvasMouseX <? x l)%js
                  || (x l + width l <? canvasMouseX)%js
                  || ((canvasMouseY <? y l)%js
                      || (y l + height l <? canvasMouseY)%js)))
      (_renderedShapes this) in
  match intersecting with
  | Some entry => Some (snd entry)
  | None => None
  end.

Definition _mouseDown (this : Component) (event : MouseEvent)
  : Component :=
  setState (fun s => set_dragMoved false (set_dragging true s)) this.

Definition _mouseMove (this : Component) (event : MouseEvent)
  : completion Component :=
  let hovered := _getIntersectingMeasure this event in
  let (canvasMouseX, canvasMouseY) := _getCanvasMousePos event in
  let tooltip :=
    match _tooltip this with
    | Some t =>
        let tooltipX := (canvasMouseX + TOOLTIP_OFFSET)%js in
        let tooltipY := (canvasMouseY + TOOLTIP_OFFSET)%js in
        Some {| left := tooltipX;
                top := tooltipY;
                textContent :=
                  match hovered with
                  | Some h =>
                      toFixed (duration (measure h)) 1
                        +:+ "ms " +:+ name (measure h)
                  | None => textContent t
                  end |}
    | None => None
    end in
  let this' :=
    {| props := props this; state := state this;
       _canvas := _canvas this; _renderedShapes := _renderedShapes this;
       _mouseX := canvasMouseX; _mouseY := canvasMouseY;
       _tooltip := tooltip |} in
  if dragging (state this) then
    let updated :=
      (center (state this)
       - movementX event / PX_PER_MS / zoom (state this))%js in
    c ← _clampCenter this updated;
    mret (setState
            (fun s => set_dragMoved true (set_hovered hovered
                                            (set_center c s)))
            this')
  else
    mret this'.

Definition _mouseUp (this : Component) (event : MouseEvent) : Component :=
  setState
    (fun s =>
       set_selection
         (if negb (dragMoved (state this))
          then _getIntersectingMeasure this event
          else selection (state this))
         (set_dragMoved false (set_dragging false s)))
    this.

(** The three locals of [_handleWheel]. *)
Definition mouseOffsetFromCenter (this : Component) (event : MouseEvent)
  : num :=
  let (canvasMouseX, _) := _getCanvasMousePos event in
  (canvasMouseX - viewportWidth (props this) / num_of_Z 2)%js.

Definition updatedZoom (this : Component) (event : MouseEvent) : num :=
  (zoom (state this) * (num_of_Z 1 + ratio 1 200 * - deltaY event))%js.

Definition updatedCenter (this : Component) (event : MouseEvent) : num :=
  (center (state this)
   + mouseOffsetFromCenter this event / PX_PER_MS / zoom (state this)
   - mouseOffsetFromCenter this event / PX_PER_MS
     / updatedZoom this event)%js.

Definition _handleWheel (this : Component) (event : MouseEvent)
  : completion Component :=
  let updatedZoom := updatedZoom this event in
  let updatedCenter := updatedCenter this event in
  if negb (_clampZoom updatedZoom === zoom (state this))%js then
    let z := _clampZoom updatedZoom in
    c ← _clampCenter this updatedCenter;
    mret (setState (fun s => set_center c (set_zoom z s)) this)
  else
    mret this.

Definition _handleKey (this : Component) (key : string)
  : completion Component :=
  e ← _getExtents (props this);
  if String.eqb key "w" then
    let updated := (zoom (state this) * num_of_Z 2)%js in
    mret (setState (set_zoom (_clampZoom updated)) this)
  else if String.eqb key "a" then
    let updated :=
      (center (state this)
       - ratio 1 20 * size e / zoom (state this))%js in
    c ← _clampCenter this updated;
    mret (setState (set_center c) this)
  else if String.eqb key "s" then
    let updated := (zoom (state this) / num_of_Z 2)%js in
    mret (setState (set_zoom (_clampZoom updated)) this)
  else if String.eqb key "d" then
    let updated :=
      (center (state this)
       + ratio 1 20 * size e / zoom (state this))%js in
    c ← _clampCenter this updated;
    mret (setState (set_center c) this)
  else
    mret this.

Definition _getLayout (this : Component) (m : RenderableMeasure)
  : Layout :=
  let centerOffset := center (state this) in
  let width :=
    Math_max
      (duration (measure m) * PX_PER_MS * zoom (state this)
       - BAR_X_GUTTER)%js
      (num_of_Z 0) in
  let height := BAR_HEIGHT in
  let x :=
    ((startTime (measure m) - centerOffset) * PX_PER_MS
     * zoom (state this)
     + viewportWidth (props this) / num_of_Z 2)%js in
  let y := (num_of_nat (stackIndex m) * (BAR_HEIGHT + BAR_Y_GUTTER))%js in
  {| width := width;
     height := height;
     x := x;
     y := y;
     inView :=
       negb ((x + width <? num_of_Z 0)%js
             || (viewportWidth (props this) <? x)%js) |}.

(** [_renderCanvas], as far as the component's own state goes: the map of
    rendered shapes is cleared and refilled with the layouts in view. *)
Definition _renderCanvas (this : Component) : Component :=
  if _canvas this then
    let renderableTrace := transformTrace (trace (props this)) in
    let shapes :=
      omap (fun m =>
              let layout := _getLayout this m in
              if inView layout then Some (layout, m) else None)
        renderableTrace in
    {| props := props this; state := state this;
       _canvas := _canvas this; _renderedShapes := shapes;
       _mouseX := _mouseX this; _mouseY := _mouseY this;
       _tooltip := _tooltip this |}
  else this.

Definition componentDidUpdate (this : Component) : Component :=
  match renderer (props this) with
  | canvas => _renderCanvas this
  | dom => this
  end.

(** The refs [_onCanvas] and [_onTooltip], set when the elements mount. *)
Definition _onCanvas (this : Component) (node : bool) : Component :=
  {| props := props this; state := state this;
     _canvas := node; _renderedShapes := _renderedShapes this;
     _mouseX := _mouseX this; _mouseY := _mouseY this;
     _tooltip := _tooltip this |}.

Definition _onTooltip (this : Component) (node : option Tooltip)
  : Component :=
  {| props := props this; state := state this;
     _canvas := _canvas this; _renderedShapes := _renderedShapes this;
     _mouseX := _mouseX this; _mouseY := _mouseY this;
     _tooltip := node |}.

Definition componentDidMount (this : Component) : Component :=
  match renderer (props this) with
  | canvas => _renderCanvas this
  | dom => this
  end.

End Component.

(** [storeValue]: the item written is [String(val)], which [parseFloat]
    reads back as [val] itself; with items represented by the number read
    from them, the write stores [val]. *)
Definition storeValue (localStorage : Storage) (name : string) (val : num)
  : Storage :=
  <[name := val]> localStorage.

(** The [window.onbeforeunload] handler installed by [componentDidMount]. *)
Definition onbeforeunload (this : Component) (localStorage : Storage)
  : Storage :=
  storeValue (storeValue localStorage "center" (center (state this)))
    "zoom" (zoom (state this)).

(** The test of [_getIntersectingMeasure]: the point lies within the
    rectangle, its border included. *)
Definition contains (l : Layout) (px py : num) : bool :=
  negb ((px <? x l)%js
        || (x l + width l <? px)%js
        || ((py <? y l)%js || (y l + height l <? py)%js)).

Definition DRAW_LIMIT : nat := 500.
Definition DRAW_MIN_PERCENT : num := ratio 3 10.

(** A bar of the DOM renderer: the [div] with [key] and [data-index] [key],
    placed by [bar] and labelled by [shown]. *)
Record DomBar : Type := {
  key : nat;
  bar : Layout;
  shown : RenderableMeasure;
}.

(** What [render] returns: the placeholder, the canvas element with its
    size, or the bars of the DOM renderer (one slot per measure, [None] for
    a measure that is not drawn) inside a container of [contentWidth],
    with the counter shown next to them. *)
Inductive View : Type :=
  | EmptyTrace
  | CanvasView (w h : num)
  | DomView (contentWidth : num) (bars : list (option DomBar)) (drawn : nat).

(** A measure the DOM renderer counts: in view and at least
    [DRAW_MIN_PERCENT] of the viewport wide. *)
Definition drawable (this : Component) (m : RenderableMeasure) : bool :=
  inView (_getLayout this m)
  && negb (width (_getLayout this m)
           <? viewportWidth (props this)
              * (DRAW_MIN_PERCENT / num_of_Z 100))%js.

(** The bounds the clamps enforce: the zoom within
    [[MIN_ZOOM, MAX_ZOOM]] and the center within the extents. *)
Definition viewport_ok (e : Extents) (s : State) : bool :=
  (MIN_ZOOM <=? zoom s)%js && (zoom s <=? MAX_ZOOM)%js
  && (startOffset e <=? center s)%js && (center s <=? endOffset e)%js.

(** What the user can do to the mounted component: the two range inputs,
    the two buttons, a click on a bar of the DOM renderer, the mouse and
    wheel events of the canvas, and a key press. *)
Inductive Action : Type :=
  | ChangeZoom (value : num)
  | ChangeCenter (value : num)
  | ClickLeft
  | ClickRight
  | ClickMeasure (index : nat)
  | MouseDown (event : MouseEvent)
  | MouseMove (event : MouseEvent)
  | MouseUp (event : MouseEvent)
  | Wheel (event : MouseEvent)
  | KeyPress (key : string).

(** An action whose numbers are finite, and a wheel event whose zoom factor
    [1 + 0.005 * -deltaY] is not zero. *)
Definition action_finite (a : Action) : bool :=
  match a with
  | ChangeZoom value | ChangeCenter value => isFinite value
  | MouseMove event => isFinite (movementX event)
  | Wheel event =>
      isFinite (clientX event) && isFinite (rect_left event)
      && isFinite (deltaY event)
      && negb (deltaY event === num_of_Z 200)%js
  | _ => true
  end.

(** The actions whose handler reads the extents before it changes
    anything. *)
Definition needs_extents (this : Component) (a : Action) : bool :=
  match a with
  | ChangeCenter _ | ClickLeft | ClickRight | KeyPress _ => true
  | MouseMove _ => dragging (state this)
  | Wheel event =>
      negb (_clampZoom (updatedZoom this event) === zoom (state this))%js
  | _ => false
  end.

Section Document.

Variable transformTrace : list Measure -> list RenderableMeasure.
Variable toFixed : num -> nat -> string.

Definition _getContentWidth (this : Component) : completion num :=
  e ← _getExtents transformTrace (props this);
  mret (size e * PX_PER_MS * zoom (state this))%js.

(** The callback of [renderableTrace.map] in [render]: [drawn] counts the
    measures that are in view and wide enough, and a measure counted beyond
    [DRAW_LIMIT] is not drawn. *)
Definition render_measure (this : Component)
    (acc : nat * list (option DomBar)) (indexed : nat * RenderableMeasure)
  : nat * list (option DomBar) :=
  let (drawn, elements) := acc in
  let (index, m) := indexed in
  let l := _getLayout this m in
  if negb (inView l) then (drawn, elements ++ [None])
  else if (width l
           <? viewportWidth (props this)
              * (DRAW_MIN_PERCENT / num_of_Z 100))%js
  then (drawn, elements ++ [None])
  else
    let drawn := S drawn in
    if (DRAW_LIMIT <? drawn)%nat then (drawn, elements ++ [None])
    else (drawn,
          elements ++ [Some {| key := index; bar := l; shown := m |}]).

Definition render (this : Component) : completion View :=
  let renderableTrace := transformTrace (trace (props this)) in
  match renderableTrace !! 0%nat with
  | None => mret EmptyTrace
  | Some _ =>
      extents ← _getExtents transformTrace (props this);
      match renderer (props this) with
      | canvas =>
          mret (CanvasView (viewportWidth (props this))
                  (viewportHeight (props this)))
      | dom =>
          contentWidth ← _getContentWidth this;
          let (drawn, elements) :=
            foldl (render_measure this) (0%nat, [])
              (imap (fun index m => (index, m)) renderableTrace) in
          mret (DomView contentWidth elements drawn)
      end
  end.

(** The handler each action is wired to. *)
Definition dispatch (this : Component) (a : Action) : completion Component :=
  match a with
  | ChangeZoom value => mret (_handleZoom this value)
  | ChangeCenter value => _handleCenter transformTrace this value
  | ClickLeft => _handleLeft transformTrace this
  | ClickRight => _handleRight transformTrace this
  | ClickMeasure index =>
      mret (_handleMeasureClick transformTrace this index)
  | MouseDown event => mret (_mouseDown this event)
  | MouseMove event => _mouseMove transformTrace toFixed this event
  | MouseUp event => mret (_mouseUp this event)
  | Wheel event => _handleWheel transformTrace this event
  | KeyPress key => _handleKey transformTrace this key
  end.

(** A sequence of actions, each on the component the previous one left. *)
Definition dispatch_all (this : Component) (actions : list Action)
  : completion Component :=
  foldl (fun c a => this' ← c; dispatch this' a) (Normal this) actions.

End Document.

End Part000.

(** ** The component of [src/src/Trace.js] *)

Module Trace.

Definition USE_PERSISTENT_STATE : bool := false.

Inductive Renderer : Type :=
  | canvas
  | dom
  | webgl.

Record Props : Type := {
  groupOrder : option (list string);
  persistView : bool;
  truncateLabels : bool;
  trace : list Measure;
  renderer : Renderer;
  viewportWidth : num;
  viewportHeight : num;
}.

Record State : Type := {
  center : num;
  verticalOffset : num;
  defaultCenter : num;
  dragging : bool;
  dragMoved : bool;
  hovered : option RenderableMeasure;
  selection : option RenderableMeasure;
  zoom : num;
  defaultZoom : num;
  zooming : bool;
}.

(** The argument of [_handleStateChange]: any subset of the state's keys.
    An absent key is [None]; so is a [zoom] or [center] that is [null]. *)
Record Changes : Type := {
  c_center : option num;
  c_verticalOffset : option num;
  c_defaultCenter : option num;
  c_dragging : option bool;
  c_dragMoved : option bool;
  c_hovered : option (option RenderableMeasure);
  c_selection : option (option RenderableMeasure);
  c_zoom : option num;
  c_defaultZoom : option num;
  c_zooming : option bool;
}.

Definition no_changes : Changes :=
  {| c_center := None; c_verticalOffset := None; c_defaultCenter := None;
     c_dragging := None; c_dragMoved := None; c_hovered := None;
     c_selection := None; c_zoom := None; c_defaultZoom := None;
     c_zooming := None |}.

Record Component : Type := {
  props : Props;
  state : State;
  _mouseX : num;
  _mouseY : num;
}.

(** What [render] hands over: the placeholder for an empty trace, or the
    extents, the minimum zoom and the state passed to the renderers. *)
Inductive View : Type :=
  | EmptyTrace
  | Rendered (extents : Extents) (minZoom : num) (s : State).

(** [localStorage]: each stored item is represented by the number
    [parseFloat] reads from it ([NaN] when it reads none). *)
Definition Storage : Type := gmap string num.

Definition set_center (v : num) (s : State) : State :=
  {| center := v; verticalOffset := verticalOffset s;
     defaultCenter := defaultCenter s; dragging := dragging s;
     dragMoved := dragMoved s; hovered := hovered s;
     selection := selection s; zoom := zoom s;
     defaultZoom := defaultZoom s; zooming := zooming s |}.
Definition set_zoom (v : num) (s : State) : State :=
  {| center := center s; verticalOffset := verticalOffset s;
     defaultCenter := defaultCenter s; dragging := dragging s;
     dragMoved := dragMoved s; hovered := hovered s;
     selection := selection s; zoom := v;
     defaultZoom := defaultZoom s; zooming := zooming s |}.
Definition set_selection (v : option RenderableMeasure) (s : State)
  : State :=
  {| center := center s; verticalOffset := verticalOffset s;
     defaultCenter := defaultCenter s; dragging := dragging s;
     dragMoved := dragMoved s; hovered := hovered s;
     selection := v; zoom := zoom s;
     defaultZoom := defaultZoom s; zooming := zooming s |}.

Definition setState (f : State -> State) (this : Component) : Component :=
  {| props := props this; state := f (state this);
     _mouseX := _mouseX this; _mouseY := _mouseY this |}.

Definition loadValue (localStorage : Storage) (p : Props) (name : string)
    (defaultVal : num) : num :=
  match localStorage !! name with
  | Some parsed =>
      if (persistView p || USE_PERSISTENT_STATE)
         && negb (isNaN parsed)
      then parsed else defaultVal
  | None => defaultVal
  end.

Section Component.

(** The layout engine imported from [./calculateTraceLayout] and the two
    constants of [./constants] the modelled methods use. *)
Variable transformTrace : list Measure -> list RenderableMeasure.
Variable PX_PER_MS : num.
Variable MAX_ZOOM : num.

(** The grouped layout [_transformTraceGroups] is computed here as well in
    the source; its result is not used by this method. *)
Definition _getExtents (p : Props) : completion Extents :=
  extents_of (transformTrace (trace p)).

Definition constructor (localStorage : Storage) (p : Props)
  : completion Component :=
  e ← _getExtents p;
  let defaultZoom := num_of_Z 1 in
  let defaultCenter :=
    (startOffset e + viewportWidth p / PX_PER_MS / num_of_Z 2)%js in
  let zoom := loadValue localStorage p "zoom" defaultZoom in
  mret {|
    props := p;
    state := {|
      dragging := false;
      dragMoved := false;
      selection := None;
      hovered := None;
      center := loadValue localStorage p "center" defaultCenter;
      verticalOffset := num_of_Z 0;
      defaultCenter := defaultCenter;
      zoom := zoom;
      defaultZoom := defaultZoom;
      zooming := false |};
    _mouseX := num_of_Z 0;
    _mouseY := num_of_Z 0 |}.

Definition _handleSelectionChange (this : Component)
    (sel : option RenderableMeasure) : Component :=
  setState (set_selection sel) this.

Definition _clampCenter (this : Component) (updated : num)
  : completion num :=
  e ← _getExtents (props this);
  mret (Math_max (startOffset e) (Math_min (endOffset e) updated)).

Definition _getMinZoom (this : Component) : completion num :=
  e ← _getExtents (props this);
  mret (viewportWidth (props this) / size e)%js.

Definition _clampZoom (this : Component) (updated : num)
  : completion num :=
  minZoom ← _getMinZoom this;
  mret (Math_max minZoom (Math_min MAX_ZOOM updated)).

Definition _handleKey (this : Component) (key : string)
  : completion Component :=
  e ← _getExtents (props this);
  if String.eqb key "w" then
    let updated := (zoom (state this) * num_of_Z 2)%js in
    z ← _clampZoom this updated;
    mret (setState (set_zoom z) this)
  else if String.eqb key "a" then
    let updated :=
      (center (state this)
       - ratio 1 20 * size e / zoom (state this))%js in
    c ← _clampCenter this updated;
    mret (setState (set_center c) this)
  else if String.eqb key "s" then
    let updated := (zoom (state this) / num_of_Z 2)%js in
    z ← _clampZoom this updated;
    mret (setState (set_zoom z) this)
  else if String.eqb key "d" then
    let updated :=
      (center (state this)
       + ratio 1 20 * size e / zoom (state this))%js in
    c ← _clampCenter this updated;
    mret (setState (set_center c) this)
  else
    mret this.

(** [setState(prevState => ({...changes, zoom: ..., center: ...}))] *)
Definition _handleStateChange (this : Component) (changes : Changes)
  : completion Component :=
  let prevState := state this in
  z ← match c_zoom changes with
      | Some v => _clampZoom this v
      | None => mret (zoom prevState)
      end;
  c ← match c_center changes with
      | Some v => _clampCenter this v
      | None => mret (center prevState)
      end;
  mret (setState
          (fun s =>
             {| center := c;
                verticalOffset :=
                  default (verticalOffset s) (c_verticalOffset changes);
                defaultCenter :=
                  default (defaultCenter s) (c_defaultCenter changes);
                dragging := default (dragging s) (c_dragging changes);
                dragMoved := default (dragMoved s) (c_dragMoved changes);
                hovered := default (hovered s) (c_hovered changes);
                selection := default (selection s) (c_selection changes);
                zoom := z;
                defaultZoom :=
                  default (defaultZoom s) (c_defaultZoom changes);
                zooming := default (zooming s) (c_zooming changes) |})
          this).

Definition render (this : Component) : completion View :=
  let renderableTrace := transformTrace (trace (props this)) in
  match renderableTrace !! 0%nat with
  | None => mret EmptyTrace
  | Some _ =>
      extents ← _getExtents (props this);
      minZoom ← _getMinZoom this;
      mret (Rendered extents minZoom (state this))
  end.

(** Mounting: React constructs the component and renders it at once. *)
Definition mount (localStorage : Storage) (p : Props) : completion View :=
  this ← constructor localStorage p;
  render this.

End Component.

(** [storeValue]: nothing is written unless the view is persisted; the item
    written is [String(val)], which [parseFloat] reads back as [val]. *)
Definition storeValue (localStorage : Storage) (p : Props) (name : string)
    (val : num) : Storage :=
  if persistView p || USE_PERSISTENT_STATE
  then <[name := val]> localStorage
  else localStorage.

(** The [window.onbeforeunload] handler installed by [componentDidMount]. *)
Definition onbeforeunload (this : Component) (localStorage : Storage)
  : Storage :=
  storeValue
    (storeValue localStorage (props this) "center" (center (state this)))
    (props this) "zoom" (zoom (state this)).

(** A [Map] keyed by the group of a measure ([undefined] is [None]): its
    entries in insertion order.  [Map.set] on a key that is present keeps
    the position of its entry. *)
Fixpoint map_get {A : Type} (k : option string)
    (m : list (option string * A)) : option A :=
  match m with
  | [] => None
  | (k', v) :: m' => if decide (k' = k) then Some v else map_get k m'
  end.

Fixpoint map_set {A : Type} (k : option string) (v : A)
    (m : list (option string * A)) : list (option string * A) :=
  match m with
  | [] => [(k, v)]
  | (k', v') :: m' =>
      if decide (k' = k) then (k, v) :: m' else (k', v') :: map_set k v m'
  end.

(** The reducer of [_transformTraceGroups]: the item is pushed onto the
    trace of its group, a new one when the group was not seen yet. *)
Definition group_item (groupsTraces : list (option string * list Measure))
    (item : Measure) : list (option string * list Measure) :=
  let groupTrace := default [] (map_get (group item) groupsTraces) in
  map_set (group item) (groupTrace ++ [item]) groupsTraces.

(** The measures of one group, in the order of the trace. *)
Definition of_group (g : option string) (trace : list Measure)
  : list Measure :=
  filter (fun m => group m = g) trace.

Definition _transformTraceGroups
    (transformTrace : list Measure -> list RenderableMeasure)
    (trace : list Measure)
  : list (option string * list RenderableMeasure) :=
  let groupedTraces := foldl group_item [] trace in
  (fun entry => (fst entry, transformTrace (snd entry))) <$> groupedTraces.

End Trace.

(** ** The viewport transforms *)

Module Viewport.

(** Modelled from the spec: the time/pixel transforms of section 4.2 are
    not functions of the sources at hand ([_getLayout] inlines the first,
    nothing computes the second). *)
Definition timeToPixel (t center zoom viewportWidth : num) : num :=
  ((t - center) * zoom + viewportWidth / num_of_Z 2)%js.

(** Modelled from the spec: [pixelToTime(px, state)] of section 4.2, the
    inverse of the transform above for a non-zero finite zoom. *)
Definition pixelToTime (px center zoom viewportWidth : num) : num :=
  ((px - viewportWidth / num_of_Z 2) / zoom + center)%js.

End Viewport.

(** ** Label truncation of the canvas renderer *)

Module Text.

Section Text.

(** A string is the list of its code units; [ellipsis] is U+2026 and
    [measureText text] is [ctx.measureText(text).width]. *)
Context {char : Type}.
Variable ellipsis : char.
Variable measureText : list char -> num.

(** An index of [String.prototype.slice]: a negative one counts from the
    end, and the result is kept within the string. *)
Definition slice_index (len i : Z) : Z :=
  if (i <? 0)%Z then Z.max (len + i) 0 else Z.min i len.

(** [text.slice(start, stop)], [text.slice(start)] when [stop] is [None]. *)
Definition slice (text : list char) (start : Z) (stop : option Z)
  : list char :=
  let len := Z.of_nat (length text) in
  let from := slice_index len start in
  let to := match stop with
            | Some e => slice_index len e
            | None => len
            end in
  take (Z.to_nat (to - from)) (drop (Z.to_nat from) text).

Definition truncateText (text : list char) (endSize : Z) : list char :=
  slice text 0 (Some endSize)
  ++ [ellipsis]
  ++ slice text (Z.of_nat (length text) - 1 - endSize) None.

(** The [while (l < r)] loop of [_fitText]; its result is the final [r]. *)
Equations? fit_loop (label : list char) (textWidth : num) (l r : Z) : Z
  by wf (Z.to_nat (r - l)) Nat.lt :=
  fit_loop label textWidth l r with Z_lt_dec l r := {
    | left _ =>
        if (textWidth
            <? measureText (truncateText label (l + (r - l) / 2)))%js
        then fit_loop label textWidth l (l + (r - l) / 2 - 1)
        else fit_loop label textWidth (l + (r - l) / 2 + 1) r
    | right _ => r }.
Proof.
  all: assert (0 <= (r - l) / 2 < r - l)%Z
    by (split; [apply Z.div_pos | apply Z.div_lt]; lia); lia.
Qed.

Definition _fitText (label : list char) (textWidth : num) : list char :=
  if (textWidth <? measureText label)%js
  then truncateText label
         (fit_loop label textWidth 0 (Z.of_nat (length label) - 1))
  else label.

(** [_fitTextMap]: a [WeakMap] from a renderable measure, an object
    identified by a key, to the width and the label cached for it. *)
Context {Key : Type} `{EqDecision Key}.

Definition FitTextMap : Type := Key -> option (num * list char).

Definition _fitTextCached (cache : FitTextMap) (measure : Key)
    (label : list char) (textWidth : num) : list char * FitTextMap :=
  let miss :=
    let labelTrimmed := _fitText label textWidth in
    (labelTrimmed,
     fun k => if decide (k = measure) then Some (textWidth, labelTrimmed)
              else cache k) in
  match cache measure with
  | Some (cachedWidth, labelTrimmed) =>
      if (cachedWidth === textWidth)%js then (labelTrimmed, cache) else miss
  | None => miss
  end.

(** A cache whose every entry holds what [_fitText] computes for the label
    of its key, [label_of] giving the name of a measure. *)
Definition coherent (label_of : Key -> list char) (cache : FitTextMap)
  : Prop :=
  forall k w t, cache k = Some (w, t) -> t = _fitText (label_of k) w.

End Text.

End Text.

(** The result of a completed computation, if it completed normally. *)
Definition result {A : Type} (c : completion A) : option A :=
  match c with
  | Normal a => Some a
  | Throw _ => None
  end.

(** ** Concrete traces and components *)

Module Fixtures.

Definition mk (n : string) (start dur : Z) : Measure :=
  {| name := n; startTime := num_of_Z start; duration := num_of_Z dur;
     group := None |}.

(** An empty [localStorage], and one holding the two persisted values. *)
Definition no_storage : gmap string num := ∅.

Definition stored (c z : num) : gmap string num :=
  <["center" := c]> (<["zoom" := z]> ∅).

(** [toFixed] for components whose tooltip is not mounted: never called. *)
Definition toFixed_unused : num -> nat -> string := fun _ _ => EmptyString.

(** The scenario of the specification: [B] and [C] nest inside [A]. *)
Definition nested_trace : list Measure :=
  [mk "A" 0 10; mk "B" 2 3; mk "C" 6 2].

(** The props [App.js] passes, over a given trace. *)
Definition app_props (t : list Measure) : Part000.Props :=
  {| Part000.truncateLabels := true;
     Part000.trace := t;
     Part000.renderer := Part000.canvas;
     Part000.viewportWidth := num_of_Z 1000;
     Part000.viewportHeight := num_of_Z 600 |}.

(** The canvas component over trace [t] with its canvas mounted and drawn,
    viewing from center [c] at zoom [z]. *)
Definition canvas_at (t : list Measure) (c z : num) : Part000.Component :=
  Part000._renderCanvas calculateTraceLayout.transformTrace
    {| Part000.props := app_props t;
       Part000.state :=
         {| Part000.center := c; Part000.dragging := false;
            Part000.dragMoved := false; Part000.hovered := None;
            Part000.selection := None; Part000.zoom := z |};
       Part000._canvas := true;
       Part000._renderedShapes := [];
       Part000._mouseX := num_of_Z 0;
       Part000._mouseY := num_of_Z 0;
       Part000._tooltip := None |}.

(** A pointer or wheel event at canvas position [(px, py)]. *)
Definition pointer_at (px py dy : Z) : Part000.MouseEvent :=
  {| Part000.clientX := num_of_Z px; Part000.clientY := num_of_Z py;
     Part000.rect_left := num_of_Z 0; Part000.rect_top := num_of_Z 0;
     Part000.movementX := num_of_Z 0; Part000.deltaY := num_of_Z dy |}.

Definition trace_props (t : list Measure) (persist : bool) (w : Z)
  : Trace.Props :=
  {| Trace.groupOrder := None;
     Trace.persistView := persist;
     Trace.truncateLabels := true;
     Trace.trace := t;
     Trace.renderer := Trace.canvas;
     Trace.viewportWidth := num_of_Z w;
     Trace.viewportHeight := num_of_Z 600 |}.

(** A [Trace.js] component in its default view over [p]. *)
Definition trace_component (p : Trace.Props) (c z : num)
  : Trace.Component :=
  {| Trace.props := p;
     Trace.state :=
       {| Trace.center := c; Trace.verticalOffset := num_of_Z 0;
          Trace.defaultCenter := c; Trace.dragging := false;
          Trace.dragMoved := false; Trace.hovered := None;
          Trace.selection := None; Trace.zoom := z;
          Trace.defaultZoom := num_of_Z 1; Trace.zooming := false |};
     Trace._mouseX := num_of_Z 0;
     Trace._mouseY := num_of_Z 0 |}.

(** A request to set the zoom, as a renderer or the controls send it. *)
Definition zoom_to (z : num) : Trace.Changes :=
  {| Trace.c_center := None; Trace.c_verticalOffset := None;
     Trace.c_defaultCenter := None; Trace.c_dragging := None;
     Trace.c_dragMoved := None; Trace.c_hovered := None;
     Trace.c_selection := None; Trace.c_zoom := Some z;
     Trace.c_defaultZoom := None; Trace.c_zooming := None |}.

End Fixtures.

Module Samples.

Import Fixtures.

(** The measures [B] and [C] of the nested scenario, both in lane 1. *)
Definition bar_B : RenderableMeasure :=
  {| measure := mk "B" 2 3; stackIndex := 1 |}.
Definition bar_C : RenderableMeasure :=
  {| measure := mk "C" 6 2; stackIndex := 1 |}.

(** The canvas over the nested scenario, seen from time 5 at zoom 100. *)
Definition nested_canvas : Part000.Component :=
  canvas_at nested_trace (num_of_Z 5) (num_of_Z 100).

(** The canvas over one measure of 100 ms, seen from its middle. *)
Definition wide_canvas : Part000.Component :=
  canvas_at [mk "A" 0 100] (num_of_Z 50) (num_of_Z 1).

(** A mouse move of [dx] pixels. *)
Definition moved_by (dx : Z) : Part000.MouseEvent :=
  {| Part000.clientX := num_of_Z 460; Part000.clientY := num_of_Z 8;
     Part000.rect_left := num_of_Z 0; Part000.rect_top := num_of_Z 0;
     Part000.movementX := num_of_Z dx; Part000.deltaY := num_of_Z 0 |}.

(** The same component drawn by the DOM renderer. *)
Definition dom_component : Part000.Component :=
  {| Part000.props :=
       {| Part000.truncateLabels := true;
          Part000.trace := nested_trace;
          Part000.renderer := Part000.dom;
          Part000.viewportWidth := num_of_Z 1000;
          Part000.viewportHeight := num_of_Z 600 |};
     Part000.state := Part000.state nested_canvas;
     Part000._canvas := false;
     Part000._renderedShapes := [];
     Part000._mouseX := num_of_Z 0;
     Part000._mouseY := num_of_Z 0;
     Part000._tooltip := None |}.

Definition dom_bars : list (option Part000.DomBar) :=
  match
    Part000.render calculateTraceLayout.transformTrace dom_component
  with
  | Normal (Part000.DomView _ bars _) => bars
  | _ => []
  end.

Definition dom_drawn : nat :=
  match
    Part000.render calculateTraceLayout.transformTrace dom_component
  with
  | Normal (Part000.DomView _ _ drawn) => drawn
  | _ => 0%nat
  end.

Definition dom_contentWidth : num :=
  match
    Part000.render calculateTraceLayout.transformTrace dom_component
  with
  | Normal (Part000.DomView contentWidth _ _) => contentWidth
  | _ => NaN
  end.

(** The extents of [wide_canvas], and [wide_canvas] after the pointer was
    pressed and moved 10 pixels. *)
Definition wide_extents : Extents :=
  match
    Part000._getExtents calculateTraceLayout.transformTrace
      (Part000.props wide_canvas)
  with
  | Normal e => e
  | Throw _ =>
      {| startOffset := NaN; endOffset := NaN; size := NaN |}
  end.

Definition dragged : Part000.Component :=
  match
    Part000._mouseMove calculateTraceLayout.transformTrace toFixed_unused
      (Part000._mouseDown wide_canvas (moved_by 0)) (moved_by 10)
  with
  | Normal this' => this'
  | Throw _ => wide_canvas
  end.

(** A [Trace.js] component over one measure of 100 ms, persisting its view
    or not. *)
Definition persisted (persist : bool) : Trace.Component :=
  trace_component (trace_props [mk "A" 0 100] persist 1000)
    (num_of_Z 50) (num_of_Z 20).

(** A label of five letters, with the letter [.] standing for the
    ellipsis, measured at 6 pixels a letter. *)
Definition letters : list Ascii.ascii :=
  String.list_ascii_of_string "label".
Definition dot : Ascii.ascii := Ascii.ascii_of_nat 46.
Definition six_a_letter (text : list Ascii.ascii) : num :=
  (num_of_Z 6 * num_of_nat (length text))%js.

(** The cache of fitted labels after the label of measure 0 was fitted to
    20 pixels and that of measure 1 to 100 pixels: measure 0 holds a
    truncated label, measure 1 the whole label. *)
Definition warm_cache : Text.FitTextMap (Key := nat) :=
  (Text._fitTextCached dot six_a_letter
     (Text._fitTextCached dot six_a_letter (fun _ => None) 0%nat letters
        (num_of_Z 20)).2
     1%nat letters (num_of_Z 100)).2.

End Samples.

(** ** Facts about JavaScript numbers *)

Lemma Qc_ltb_reflect (a b : Qc) : reflect (a < b)%Qc (Qc_ltb a b).
Proof.
  unfold Qc_ltb. destruct (a ?= b)%Qc eqn:E; constructor.
  - rewrite Qclt_alt. congruence.
  - by apply Qclt_alt.
  - rewrite Qclt_alt. congruence.
Qed.

Lemma Qc_eq_bool_reflect (a b : Qc) : reflect (a = b) (Qc_eq_bool a b).
Proof.
  destruct (Qc_eq_bool a b) eqn:E; constructor.
  - by apply Qc_eq_bool_correct.
  - intros ->. revert E. unfold Qc_eq_bool.
    destruct (Qcanon.Qc_eq_dec b b); congruence.
Qed.

(** Case analysis on every comparison of rationals in sight, and the
    arithmetic that closes the cases. *)
Ltac qc_cases :=
  repeat match goal with
    | |- context [Qc_ltb ?a ?b] => destruct (Qc_ltb_reflect a b)
    | |- context [Qc_eq_bool ?a ?b] => destruct (Qc_eq_bool_reflect a b)
    | H : context [Qc_ltb ?a ?b] |- _ => destruct (Qc_ltb_reflect a b)
    | H : context [Qc_eq_bool ?a ?b] |- _ =>
        destruct (Qc_eq_bool_reflect a b)
    end.

Ltac qc_order :=
  first
    [ reflexivity
    | discriminate
    | congruence
    | exfalso; unfold Qclt, Qcle in *; lra
    | exfalso; subst; unfold Qclt, Qcle in *; cbn in *; lra
    | f_equal; apply Qc_is_canon; unfold Qclt, Qcle in *; lra ].

Ltac num_crush :=
  intros; repeat (cbn in *; qc_cases); try done; try qc_order.

Lemma lt_irrefl (a : num) : (a <? a)%js = false.
Proof. destruct a; num_crush. Qed.

Lemma le_true_not_NaN (a b : num) :
  (a <=? b)%js = true -> isNaN a = false /\ isNaN b = false.
Proof. destruct a, b; cbn; intros; try discriminate; done. Qed.

Lemma lt_total (a b : num) :
  isNaN a = false -> isNaN b = false ->
  (a <? b)%js = false -> (b <? a)%js = false -> a = b.
Proof. destruct a, b; num_crush. Qed.

Lemma Math_max_NaN_r (a : num) : Math_max a NaN = NaN.
Proof. by destruct a. Qed.

Lemma Math_min_NaN_r (a : num) : Math_min a NaN = NaN.
Proof. by destruct a. Qed.

(** [Math.max(lo, Math.min(hi, v))] is the identity on [lo <= v <= hi]. *)
Lemma clamp_in_range (lo hi v : num) :
  (lo <=? v)%js = true -> (v <=? hi)%js = true ->
  Math_max lo (Math_min hi v) = v.
Proof. unfold Math_max, Math_min. destruct lo, hi, v; num_crush. Qed.

(** A clamped number lies between the bounds, when these are in order. *)
Lemma clamp_within (lo hi v : num) :
  isNaN v = false -> (lo <=? hi)%js = true ->
  (lo <=? Math_max lo (Math_min hi v))%js = true
  /\ (Math_max lo (Math_min hi v) <=? hi)%js = true.
Proof. unfold Math_max, Math_min. destruct lo, hi, v; num_crush. Qed.

(** Clamping twice between the same bounds is clamping once, whatever the
    bounds and the value are ([NaN] and the infinities included). *)
Lemma clamp_idempotent (lo hi v : num) :
  Math_max lo (Math_min hi (Math_max lo (Math_min hi v)))
  = Math_max lo (Math_min hi v).
Proof. unfold Math_max, Math_min. destruct lo, hi, v; num_crush. Qed.

Lemma mul_1_r (a : num) : (a * num_of_Z 1)%js = a.
Proof.
  destruct a; try reflexivity. cbn. f_equal. apply Qcmult_1_r.
Qed.

Lemma div_1_r (a : num) : (a / num_of_Z 1)%js = a.
Proof.
  destruct a as [| | |q]; try reflexivity.
  change (num_of_Z 1) with (Fin 1%Qc). unfold div.
  destruct (Qc_eq_bool_reflect 1 0) as [H|_]; [discriminate H|].
  f_equal. apply (right_id 1%Qc Qcdiv).
Qed.

Lemma strict_eq_refl (a : num) : isNaN a = false -> (a === a)%js = true.
Proof. destruct a; num_crush. Qed.

Lemma strict_eq_true (a b : num) : (a === b)%js = true -> a = b.
Proof. destruct a, b; num_crush. Qed.

Lemma isFinite_inv (a : num) : isFinite a = true -> exists q, a = Fin q.
Proof. destruct a; cbn; try discriminate; eauto. Qed.

Lemma isFinite_add_inv (a b : num) :
  isFinite (a + b)%js = true -> isFinite a = true /\ isFinite b = true.
Proof. destruct a, b; cbn; try discriminate; done. Qed.

Lemma isFinite_sub_inv (a b : num) :
  isFinite (a - b)%js = true -> isFinite a = true /\ isFinite b = true.
Proof. destruct a, b; cbn; try discriminate; done. Qed.

(** A product that is a non-zero rational has rational factors. *)
Lemma mul_Fin_inv (a b : num) (q : Qc) :
  (a * b)%js = Fin q -> q <> 0%Qc ->
  exists u v, a = Fin u /\ b = Fin v /\ u <> 0%Qc /\ q = (u * v)%Qc.
Proof.
  destruct a as [| | |u], b as [| | |v]; try (num_crush; fail).
  cbn. intros H Hq.
  assert (q = (u * v)%Qc) as -> by congruence. exists u, v.
  repeat split; try done.
  intros ->. apply Hq. ring.
Qed.

Lemma div_Fin (u v : Qc) :
  v <> 0%Qc -> (Fin u / Fin v)%js = Fin (u / v)%Qc.
Proof. intros. cbn. by destruct (Qc_eq_bool_reflect v 0). Qed.

Lemma lt_asym (a b : num) : (a <? b)%js = true -> (b <? a)%js = false.
Proof. destruct a, b; num_crush. Qed.

Lemma lt_not_strict_eq (a b : num) :
  (a <? b)%js = true -> (b === a)%js = false.
Proof. destruct a, b; num_crush. Qed.

Lemma strict_eq_not_lt (a b : num) :
  (a === b)%js = true -> (b <? a)%js = false.
Proof. destruct a, b; num_crush. Qed.

Lemma Math_max_0_not_negative (v : num) :
  (Math_max v (num_of_Z 0) <? num_of_Z 0)%js = false.
Proof. unfold Math_max. destruct v; num_crush. Qed.

(** ** The canvas component: zoom clamp, projection, pointer handlers *)

Section Part000Facts.

Import Part000.

Variable transformTrace : list Measure -> list RenderableMeasure.
Variable toFixed : num -> nat -> string.

Lemma Part000_clampZoom_idempotent (z : num) :
  _clampZoom (_clampZoom z) = _clampZoom z.
Proof. apply clamp_idempotent. Qed.

Lemma Part000_clampZoom_in_range (z : num) :
  (MIN_ZOOM <=? z)%js = true -> (z <=? MAX_ZOOM)%js = true ->
  _clampZoom z = z.
Proof. apply clamp_in_range. Qed.

Lemma Part000_clampCenter_in_range (this : Component) (e : Extents)
    (c : num) :
  _getExtents transformTrace (props this) = Normal e ->
  (startOffset e <=? c)%js = true -> (c <=? endOffset e)%js = true ->
  _clampCenter transformTrace this c = Normal c.
Proof.
  intros He Hlo Hhi. unfold _clampCenter. rewrite He. cbn.
  f_equal. by apply clamp_in_range.
Qed.

(** C5.  The projected layout of a renderable measure: [width] is
    [max(duration * zoom - xGutter, 0)], [x] is
    [(startTime - center) * zoom + viewportWidth / 2], [y] is
    [stackIndex * (laneHeight + laneGutter)], [inView] is
    [!(x + width < 0 || viewportWidth < x)], and [width] is never
    negative, whatever the duration. *)
Theorem getLayout_projection (this : Component) (m : RenderableMeasure) :
  let l := _getLayout this m in
  width l
  = Math_max (duration (measure m) * zoom (state this) - BAR_X_GUTTER)%js
      (num_of_Z 0)
  /\ x l
     = ((startTime (measure m) - center (state this)) * zoom (state this)
        + viewportWidth (props this) / num_of_Z 2)%js
  /\ x l
     = Viewport.timeToPixel (startTime (measure m)) (center (state this))
         (zoom (state this)) (viewportWidth (props this))
  /\ y l = (num_of_nat (stackIndex m) * (BAR_HEIGHT + BAR_Y_GUTTER))%js
  /\ height l = BAR_HEIGHT
  /\ inView l
     = negb ((x l + width l <? num_of_Z 0)%js
             || (viewportWidth (props this) <? x l)%js)
  /\ (width l <? num_of_Z 0)%js = false.
Proof.
  cbn. unfold Viewport.timeToPixel, PX_PER_MS. rewrite !mul_1_r.
  repeat split. apply Math_max_0_not_negative.
Qed.

(** C6.  On pointer-up the selection becomes the hit-test result at the
    release point when the pointer did not move since pointer-down, and is
    left as it was when it did; the drag ends either way.  Pointer-down
    starts every drag with [dragMoved] false. *)
Theorem mouseUp_selects_only_on_click (this : Component)
    (event : MouseEvent) :
  selection (state (_mouseUp this event))
  = (if dragMoved (state this)
     then selection (state this)
     else _getIntersectingMeasure this event)
  /\ dragging (state (_mouseUp this event)) = false
  /\ dragMoved (state (_mouseUp this event)) = false
  /\ center (state (_mouseUp this event)) = center (state this)
  /\ zoom (state (_mouseUp this event)) = zoom (state this)
  /\ hovered (state (_mouseUp this event)) = hovered (state this)
  /\ dragging (state (_mouseDown this event)) = true
  /\ dragMoved (state (_mouseDown this event)) = false
  /\ selection (state (_mouseDown this event)) = selection (state this).
Proof. cbn. by destruct (dragMoved (state this)). Qed.

(** C10.  A wheel event whose clamped candidate zoom is the current zoom
    leaves the whole component as it was: no zoom, no center, no other
    field changes. *)
Theorem handleWheel_at_zoom_limit (this : Component) (event : MouseEvent) :
  (_clampZoom (updatedZoom this event) === zoom (state this))%js = true ->
  _handleWheel transformTrace this event = Normal this.
Proof. intros H. unfold _handleWheel. by rewrite H. Qed.

(** C4, as amended.  When the candidate zoom of a wheel event lies within
    [[MIN_ZOOM, MAX_ZOOM]] and the candidate center
    [center + d/zoom - d/newZoom] (with [d] the pointer's pixel offset from
    the viewport center) is finite and lies within the extents, the handler
    leaves the component with exactly that zoom and that center, and the
    time under the pointer is the same before and after. *)
Theorem handleWheel_keeps_pointer_time (this : Component)
    (event : MouseEvent) (e : Extents) :
  _getExtents transformTrace (props this) = Normal e ->
  (MIN_ZOOM <=? updatedZoom this event)%js = true ->
  (updatedZoom this event <=? MAX_ZOOM)%js = true ->
  (startOffset e <=? updatedCenter this event)%js = true ->
  (updatedCenter this event <=? endOffset e)%js = true ->
  isFinite (updatedCenter this event) = true ->
  exists this',
    _handleWheel transformTrace this event = Normal this'
    /\ props this' = props this
    /\ zoom (state this') = updatedZoom this event
    /\ center (state this')
       = (center (state this)
          + mouseOffsetFromCenter this event / zoom (state this)
          - mouseOffsetFromCenter this event / updatedZoom this event)%js
    /\ Viewport.pixelToTime (fst (_getCanvasMousePos event))
         (center (state this')) (zoom (state this'))
         (viewportWidth (props this'))
       = Viewport.pixelToTime (fst (_getCanvasMousePos event))
           (center (state this)) (zoom (state this))
           (viewportWidth (props this)).
Proof.
  intros He Hzlo Hzhi Hclo Hchi Hfin.
  assert (Hc : updatedCenter this event
               = (center (state this)
                  + mouseOffsetFromCenter this event / zoom (state this)
                  - mouseOffsetFromCenter this event
                    / updatedZoom this event)%js).
  { unfold updatedCenter, PX_PER_MS. by rewrite !div_1_r. }
  assert (Hpx : forall c z,
             Viewport.pixelToTime (fst (_getCanvasMousePos event)) c z
               (viewportWidth (props this))
             = (mouseOffsetFromCenter this event / z + c)%js).
  { intros. unfold Viewport.pixelToTime, mouseOffsetFromCenter.
    by destruct (_getCanvasMousePos event). }
  (* the candidate zoom is a non-zero rational, and so is the zoom *)
  destruct (updatedZoom this event) as [| | |z'] eqn:Ez; try discriminate.
  assert (Hz' : z' <> 0%Qc).
  { intros ->. revert Hzlo. vm_compute. discriminate. }
  unfold updatedZoom in Ez.
  destruct (mul_Fin_inv _ _ _ Ez Hz') as (z & k & Hzoom & Hk & Hz & ->).
  rewrite Hc in Hfin.
  apply isFinite_sub_inv in Hfin as [Hfin _].
  apply isFinite_add_inv in Hfin as [Hcen Hoff].
  apply isFinite_inv in Hcen as [c Hcen].
  rewrite Hzoom in Hoff.
  (* the center and the pointer offset are rationals too *)
  destruct (mouseOffsetFromCenter this event) as [| | |d] eqn:Ed;
    try discriminate.
  { revert Hoff; cbn. by destruct (Qc_ltb z 0). }
  { revert Hoff; cbn. by destruct (Qc_ltb z 0). }
  clear Hoff.
  assert (Hset : _clampZoom (Fin (z * k)) = Fin (z * k)%Qc)
    by (by apply Part000_clampZoom_in_range).
  assert (Hcc : _clampCenter transformTrace this (updatedCenter this event)
                = Normal (updatedCenter this event))
    by (by eapply Part000_clampCenter_in_range).
  exists (if (Fin (z * k) === zoom (state this))%js then this
          else setState (fun s => set_center (updatedCenter this event)
                                    (set_zoom (Fin (z * k)%Qc) s)) this).
  split.
  { unfold _handleWheel. unfold updatedZoom at 1 2. rewrite Ez, Hset, Hcc.
    by destruct (Fin (z * k) === zoom (state this))%js. }
  assert (Hsame : (Fin c + Fin d / Fin z - Fin d / Fin z)%js = Fin c).
  { rewrite div_Fin by done. cbn. f_equal. ring. }
  destruct (Fin (z * k) === zoom (state this))%js eqn:Eeq.
  - apply strict_eq_true in Eeq. rewrite Hzoom in Eeq.
    by rewrite Hzoom, Hcen, Eeq, Hsame.
  - unfold setState, set_center, set_zoom; cbn [props state center zoom].
    rewrite !Hpx, Hc, Hzoom, Hcen.
    repeat split. rewrite !div_Fin by done. cbn. f_equal. field.
    split; [done|]. intros ->. apply Hz'. ring.
Qed.

End Part000Facts.

Section Part000Hover.

Import Part000.

Variable transformTrace : list Measure -> list RenderableMeasure.
Variable toFixed : num -> nat -> string.

(** C7, as amended.  On a pointer-move while not dragging the hit-test is
    run again and its result, when there is one, becomes the text of the
    tooltip element; the component state is not touched, so neither
    [hovered] nor [selection] changes. *)
Theorem mouseMove_idle_keeps_state (this : Component)
    (event : MouseEvent) :
  dragging (state this) = false ->
  exists this',
    _mouseMove transformTrace toFixed this event = Normal this'
    /\ state this' = state this
    /\ props this' = props this
    /\ _renderedShapes this' = _renderedShapes this
    /\ (_mouseX this', _mouseY this') = _getCanvasMousePos event
    /\ textContent <$> _tooltip this'
       = (fun t =>
            match _getIntersectingMeasure this event with
            | Some h =>
                toFixed (duration (measure h)) 1
                  +:+ "ms " +:+ name (measure h)
            | None => textContent t
            end) <$> _tooltip this.
Proof.
  intros Hidle. unfold _mouseMove. rewrite Hidle.
  destruct (_getCanvasMousePos event) as [mx my].
  eexists. split; [reflexivity|]. cbn.
  repeat split. by destruct (_tooltip this).
Qed.

(** While dragging, the same handler does store the hit-test result in
    [hovered], together with the panned center; the selection stays. *)
Lemma mouseMove_dragging_stores_hovered (this : Component)
    (event : MouseEvent) (c : num) :
  dragging (state this) = true ->
  _clampCenter transformTrace this
    (center (state this)
     - movementX event / PX_PER_MS / zoom (state this))%js = Normal c ->
  exists this',
    _mouseMove transformTrace toFixed this event = Normal this'
    /\ hovered (state this') = _getIntersectingMeasure this event
    /\ selection (state this') = selection (state this)
    /\ center (state this') = c
    /\ dragMoved (state this') = true.
Proof.
  intros Hdrag Hc. unfold _mouseMove. rewrite Hdrag, Hc.
  destruct (_getCanvasMousePos event) as [mx my].
  eexists. split; [reflexivity|]. done.
Qed.

(** X22.  [_mouseDown], [_mouseMove], [_mouseUp]: a press, a move that
    succeeds, and a release leave the selection as it was before the
    press, wherever the pointer is released. *)
Lemma drag_gesture_keeps_selection (this moved : Component)
    (down move up : MouseEvent) :
  _mouseMove transformTrace toFixed (_mouseDown this down) move
  = Normal moved ->
  selection (state (_mouseUp moved up)) = selection (state this).
Proof.
  unfold _mouseMove. cbn [_mouseDown setState state dragging set_dragMoved
                           set_dragging].
  destruct (_getCanvasMousePos move) as [mx my].
  destruct (_clampCenter _ _ _) as [c|err]; [|done].
  intros [= <-]. reflexivity.
Qed.

End Part000Hover.

(** ** The component of [Trace.js]: extents, zoom clamp, initial state *)

Section TraceFacts.

Import Trace.

Variable transformTrace : list Measure -> list RenderableMeasure.
Variable PX_PER_MS : num.
Variable MAX_ZOOM : num.


Lemma Trace_clampZoom_idempotent (this : Component) (z : num) :
  (_clampZoom transformTrace MAX_ZOOM this z
     ≫= _clampZoom transformTrace MAX_ZOOM this)
  = _clampZoom transformTrace MAX_ZOOM this z.
Proof.
  unfold _clampZoom, _getMinZoom.
  destruct (_getExtents transformTrace (props this)) as [e|err];
    [|reflexivity].
  cbn. f_equal. apply clamp_idempotent.
Qed.

(** Whatever the layout engine is, a trace it lays out to nothing makes
    [_getExtents] and the constructor raise, while [render] shows the
    placeholder. *)
Lemma Trace_empty_renderable_trace (localStorage : Storage) (p : Props)
    (this : Component) :
  transformTrace (trace p) = [] -> props this = p ->
  _getExtents transformTrace p = Throw TypeError
  /\ constructor transformTrace PX_PER_MS localStorage p = Throw TypeError
  /\ render transformTrace this = Normal EmptyTrace.
Proof.
  intros Hempty Hp. unfold constructor, render, _getExtents.
  by rewrite Hp, Hempty.
Qed.

(** Every zoom and center that [_handleStateChange] stores went through the
    clamps. *)
Lemma Trace_handleStateChange_clamps (this : Component) (e : Extents)
    (changes : Changes) :
  _getExtents transformTrace (props this) = Normal e ->
  exists this',
    _handleStateChange transformTrace MAX_ZOOM this changes = Normal this'
    /\ zoom (state this')
       = match c_zoom changes with
         | Some v =>
             Math_max (viewportWidth (props this) / size e)%js
               (Math_min MAX_ZOOM v)
         | None => zoom (state this)
         end
    /\ center (state this')
       = match c_center changes with
         | Some v => Math_max (startOffset e) (Math_min (endOffset e) v)
         | None => center (state this)
         end.
Proof.
  intros He.
  unfold _handleStateChange, _clampZoom, _getMinZoom, _clampCenter.
  rewrite He.
  destruct (c_zoom changes), (c_center changes); eexists;
    (split; [reflexivity|done]).
Qed.




End TraceFacts.

(** C3.  Clamping a zoom twice is clamping it once, for every zoom value:
    in the canvas component, whose bounds are the constants [MIN_ZOOM] and
    [MAX_ZOOM], and in [Trace.js], whose lower bound is computed from the
    extents (there both sides raise the same error when the trace has
    none).  The two results are the same value; they also compare equal
    with [===] unless that value is [NaN]. *)
Theorem clampZoom_idempotent :
  (forall z : num,
     Part000._clampZoom (Part000._clampZoom z) = Part000._clampZoom z)
  /\ (forall z : num,
        isNaN (Part000._clampZoom z)
        || (Part000._clampZoom (Part000._clampZoom z)
            === Part000._clampZoom z)%js = true)
  /\ (forall (transformTrace : list Measure -> list RenderableMeasure)
             (MAX_ZOOM : num) (this : Trace.Component) (z : num),
        (Trace._clampZoom transformTrace MAX_ZOOM this z
           ≫= Trace._clampZoom transformTrace MAX_ZOOM this)
        = Trace._clampZoom transformTrace MAX_ZOOM this z).
Proof.
  split; [|split].
  - apply Part000_clampZoom_idempotent.
  - intros z. rewrite Part000_clampZoom_idempotent.
    destruct (isNaN (Part000._clampZoom z)) eqn:Hnan; [done|].
    by apply strict_eq_refl.
  - apply Trace_clampZoom_idempotent.
Qed.

(** ** The layout engine: one lane assignment per measure, sorted by start *)

Section LayoutFacts.

Import calculateTraceLayout.

Lemma insert_perm (before : Placed -> Placed -> bool) (p : Placed)
    (l : list Placed) :
  insert before p l ≡ₚ p :: l.
Proof.
  induction l as [|q l IH]; cbn; [done|].
  destruct (before q p); [|done].
  rewrite IH. apply Permutation_swap.
Qed.

Lemma sort_perm (before : Placed -> Placed -> bool) (l : list Placed) :
  sort before l ≡ₚ l.
Proof.
  induction l as [|p l IH]; cbn; [done|].
  change (foldr (insert before) [] l) with (sort before l).
  by rewrite insert_perm, IH.
Qed.

Lemma insert_sorted (before : Placed -> Placed -> bool) (p : Placed)
    (l : list Placed) :
  (forall a b, before a b = true -> before b a = false) ->
  Sorted (in_order before) l -> Sorted (in_order before) (insert before p l).
Proof.
  intros Hasym. induction l as [|q l IH]; cbn; intros Hs.
  - by repeat constructor.
  - destruct (before q p) eqn:Hqp.
    + apply Sorted_inv in Hs as [Hs Hhd]. constructor; [by apply IH|].
      destruct l as [|r l]; cbn.
      * constructor. by apply Hasym.
      * destruct (before r p); constructor.
        -- by inversion Hhd.
        -- by apply Hasym.
    + constructor; [done|]. by constructor.
Qed.

Lemma sort_sorted (before : Placed -> Placed -> bool) (l : list Placed) :
  (forall a b, before a b = true -> before b a = false) ->
  Sorted (in_order before) (sort before l).
Proof.
  intros Hasym. induction l as [|p l IH]; cbn; [constructor|].
  by apply insert_sorted.
Qed.

Lemma output_before_asym (a b : Placed) :
  output_before a b = true -> output_before b a = false.
Proof.
  unfold output_before. intros H.
  apply orb_true_iff in H as [Hlt|Heq]; apply orb_false_iff.
  - split; [by apply lt_asym|]. by rewrite (lt_not_strict_eq _ _ Hlt).
  - apply andb_true_iff in Heq as [Heq Hidx].
    split; [by apply strict_eq_not_lt|].
    apply andb_false_iff; right.
    apply Nat.ltb_lt in Hidx. apply Nat.ltb_ge. lia.
Qed.

Lemma foldl_place_placed (l : list Placed) (lanes : list num)
    (acc : list Placed) :
  placed <$> (foldl place (lanes, acc) l).2
  = rev (placed <$> l) ++ (placed <$> acc).
Proof.
  revert lanes acc. induction l as [|p l IH]; intros lanes acc; [done|].
  cbn [foldl]. unfold place at 2. rewrite IH. cbn. by rewrite <- app_assoc.
Qed.

Lemma sorted_from_of_Sorted (l : list Placed) (prev : num) :
  Forall (fun p => isNaN (startTime (placed p)) = false) l ->
  Sorted (in_order output_before) l ->
  match l with
  | [] => True
  | p :: _ => (prev <=? startTime (placed p))%js = true
  end ->
  sorted_from prev (renderable <$> l) = true.
Proof.
  revert prev. induction l as [|p l IH]; intros prev Hnan Hs Hprev; [done|].
  cbn. rewrite Hprev. cbn.
  apply Forall_cons in Hnan as [Hp Hnan].
  apply Sorted_inv in Hs as [Hs Hhd].
  apply IH; [done..|].
  destruct l as [|q l]; [done|].
  apply Forall_cons in Hnan as [Hq _].
  inversion Hhd as [|? ? Hpq]; subst. unfold in_order, output_before in Hpq.
  apply orb_false_elim in Hpq as [Hlt _].
  revert Hp Hq Hlt.
  destruct (startTime (placed p)), (startTime (placed q)); num_crush.
Qed.

Lemma placed_tagged (measures : list Measure) :
  placed <$> imap (fun i m => {| index := i; placed := m; lane := 0 |})
               measures
  = measures.
Proof.
  rewrite fmap_imap.
  rewrite (imap_ext _ (const id)) by done.
  by rewrite imap_const, list_fmap_id.
Qed.

Lemma transformTrace_placed (measures : list Measure) :
  exists l : list Placed,
    transformTrace measures = renderable <$> l
    /\ Sorted (in_order output_before) l
    /\ placed <$> l ≡ₚ measures.
Proof.
  unfold transformTrace.
  destruct (foldl place _ _) as [lanes placed_rev] eqn:Hfold.
  exists (sort output_before placed_rev). split; [done|].
  split; [apply sort_sorted, output_before_asym|].
  rewrite sort_perm.
  pose proof (foldl_place_placed
                (sort processed_before
                   (imap (fun i m => {| index := i; placed := m; lane := 0 |})
                      measures)) [] []) as H.
  rewrite Hfold in H. cbn [snd fmap list_fmap] in H.
  rewrite H, app_nil_r, <- Permutation_rev, sort_perm.
  by rewrite placed_tagged.
Qed.

(** The layout is one renderable measure per input measure. *)
Lemma transformTrace_perm (measures : list Measure) :
  measure <$> transformTrace measures ≡ₚ measures.
Proof.
  destruct (transformTrace_placed measures) as (l & -> & _ & Hperm).
  by rewrite <- list_fmap_compose.
Qed.

(** It is sorted by start time when every start time is a number. *)
Lemma transformTrace_sorted (measures : list Measure) :
  Forall (fun m => isNaN (startTime m) = false) measures ->
  sorted_by_start (transformTrace measures) = true.
Proof.
  intros Hnan.
  destruct (transformTrace_placed measures) as (l & -> & Hs & Hperm).
  assert (Hl : Forall (fun p => isNaN (startTime (placed p)) = false) l).
  { rewrite <- Hperm in Hnan. by apply Forall_fmap in Hnan. }
  destruct l as [|p l]; [done|].
  cbn [fmap list_fmap sorted_by_start].
  apply (sorted_from_of_Sorted (p :: l)); [done..|].
  apply Forall_cons in Hl as [Hp _]. revert Hp.
  cbn. destruct (startTime (placed p)); num_crush.
Qed.

Lemma transformTrace_empty (measures : list Measure) :
  transformTrace measures = [] <-> measures = [].
Proof.
  split; [|by intros ->].
  intros H. pose proof (transformTrace_perm measures) as Hperm.
  rewrite H in Hperm. by apply Permutation_nil_l in Hperm.
Qed.
End LayoutFacts.

(** ** Extents of a renderable trace *)

Lemma le_trans (a b c : num) :
  (a <=? b)%js = true -> (b <=? c)%js = true -> (a <=? c)%js = true.
Proof. destruct a, b, c; num_crush. Qed.

Lemma Math_min_le (a b : num) :
  (a <=? b)%js = true -> Math_min a b = a.
Proof. unfold Math_min. destruct a, b; num_crush. Qed.

Lemma sorted_from_min_start (prev : num) (l : list RenderableMeasure) :
  isNaN prev = false -> sorted_from prev l = true ->
  (prev <=? min_start_time l)%js = true.
Proof.
  revert prev. induction l as [|m l IH]; intros prev Hprev Hs.
  - by destruct prev.
  - cbn in Hs. apply andb_prop in Hs as [Hle Hs].
    destruct (le_true_not_NaN _ _ Hle) as [_ Hm].
    specialize (IH _ Hm Hs).
    change (min_start_time (m :: l))
      with (Math_min (startTime (measure m)) (min_start_time l)).
    by rewrite (Math_min_le _ _ IH).
Qed.

Lemma sorted_by_start_min_start (first : RenderableMeasure)
    (l : list RenderableMeasure) :
  sorted_by_start (first :: l) = true ->
  min_start_time (first :: l) = startTime (measure first).
Proof.
  intros Hs. cbn in Hs. apply andb_prop in Hs as [Hle Hs].
  destruct (le_true_not_NaN _ _ Hle) as [Hm _].
  change (min_start_time (first :: l))
    with (Math_min (startTime (measure first)) (min_start_time l)).
  apply Math_min_le. by apply sorted_from_min_start.
Qed.

Lemma extents_of_cons (first : RenderableMeasure)
    (l : list RenderableMeasure) :
  exists final,
    last (first :: l) = Some final
    /\ extents_of (first :: l)
       = Normal {| startOffset := startTime (measure first);
                   endOffset := endTime (measure final);
                   size := (endTime (measure final)
                            - startTime (measure first))%js |}.
Proof.
  destruct (last (first :: l)) as [final|] eqn:Hlast.
  2: { apply last_None in Hlast. done. }
  exists final. split; [done|]. unfold extents_of.
  replace (length (first :: l) - 1)%nat with (pred (length (first :: l)))
    by (cbn; lia).
  rewrite <- last_lookup, Hlast. reflexivity.
Qed.

(** C9, as amended.  The extents of a non-empty renderable trace come from
    its first and last element alone: [startOffset] is the first start time,
    [endOffset] the last element's end time, [size] their difference.  When
    the trace is sorted by start time, [startOffset] is the least start time
    of the whole trace. *)
Theorem extents_of_first_and_last (renderableTrace : list RenderableMeasure) :
  renderableTrace <> [] ->
  exists first final e,
    renderableTrace !! 0%nat = Some first
    /\ last renderableTrace = Some final
    /\ extents_of renderableTrace = Normal e
    /\ startOffset e = startTime (measure first)
    /\ endOffset e = endTime (measure final)
    /\ size e = (endOffset e - startOffset e)%js
    /\ (if sorted_by_start renderableTrace
        then startOffset e = min_start_time renderableTrace
        else True).
Proof.
  intros Hne. destruct renderableTrace as [|first l]; [done|].
  destruct (extents_of_cons first l) as (final & Hlast & He).
  exists first, final. eexists. repeat (split; [done|]).
  destruct (sorted_by_start (first :: l)) eqn:Hs; [|done].
  symmetry. by apply sorted_by_start_min_start.
Qed.

(** Over the layout engine of the specification, and a non-empty trace whose
    start times are numbers, the extents exist and start at the least start
    time. *)
Lemma layout_extents_start_is_min (measures : list Measure) :
  measures <> [] ->
  Forall (fun m => isNaN (startTime m) = false) measures ->
  exists e,
    extents_of (calculateTraceLayout.transformTrace measures) = Normal e
    /\ startOffset e
       = min_start_time (calculateTraceLayout.transformTrace measures).
Proof.
  intros Hne Hnan.
  pose proof (transformTrace_sorted measures Hnan) as Hs.
  destruct (calculateTraceLayout.transformTrace measures) as [|first l]
    eqn:Hlayout.
  { by apply transformTrace_empty in Hlayout. }
  destruct (extents_of_cons first l) as (final & _ & He).
  eexists. split; [done|].
  symmetry. by apply sorted_by_start_min_start.
Qed.

(** ** The handlers on concrete traces *)

Module Concrete.

Import Fixtures.

Local Abbreviation layout := calculateTraceLayout.transformTrace.
Local Abbreviation one := (num_of_Z 1).
Local Abbreviation hundred := (num_of_Z 100).
Local Abbreviation point_extents :=
  {| startOffset := num_of_Z 5;
     endOffset := (num_of_Z 5 + num_of_Z 0)%js;
     size := (num_of_Z 5 + num_of_Z 0 - num_of_Z 5)%js |}.

(** The layout engine on the scenarios of the specification. *)
Example layout_nested :
  (fun r => (name (measure r), stackIndex r)) <$> layout nested_trace
  = [("A", 0); ("B", 1); ("C", 1)]%nat.
Proof. reflexivity. Qed.

Example layout_identical :
  stackIndex <$> layout [mk "X" 0 5; mk "Y" 0 5] = [0; 1]%nat.
Proof. reflexivity. Qed.

(** C1.  On an empty trace the layout is empty, [_getExtents] reads
    [.measure] of [undefined] and raises a [TypeError], and so does the
    constructor of either revision, before anything is rendered; [render]
    itself checks for the empty trace and shows a placeholder. *)
Theorem constructor_throws_on_empty_trace :
  layout [] = []
  /\ extents_of [] = Throw TypeError
  /\ Trace._getExtents layout (trace_props [] false 1000) = Throw TypeError
  /\ Trace.constructor layout one no_storage (trace_props [] false 1000)
     = Throw TypeError
  /\ Trace.mount layout one no_storage (trace_props [] false 1000)
     = Throw TypeError
  /\ Part000.constructor layout no_storage (app_props [])
     = Throw TypeError
  /\ Trace.render layout
       (trace_component (trace_props [] false 1000) one one)
     = Normal Trace.EmptyTrace.
Proof. repeat split. Qed.



(** C4, refuted.  Viewing from center 0 at zoom 1, a wheel event 200 pixels
    left of the viewport center that doubles the zoom has candidate center
    [-100]; the center clamp keeps it at the start of the trace, and the
    time under the pointer moves from [-200] to [-100]. *)
Lemma wheel_zoom_moves_pointer_time :
  match
    Part000._handleWheel layout
      (canvas_at [mk "A" 0 100] (num_of_Z 0) one) (pointer_at 300 8 (-200))
  with
  | Normal this' =>
      (Part000.zoom (Part000.state this') === num_of_Z 2)%js
      && (Part000.center (Part000.state this') === num_of_Z 0)%js
      && (Part000.updatedCenter
            (canvas_at [mk "A" 0 100] (num_of_Z 0) one)
            (pointer_at 300 8 (-200)) === num_of_Z (-100))%js
      && (Viewport.pixelToTime (num_of_Z 300) (num_of_Z 0) one
            (num_of_Z 1000) === num_of_Z (-200))%js
      && (Viewport.pixelToTime (num_of_Z 300)
            (Part000.center (Part000.state this'))
            (Part000.zoom (Part000.state this'))
            (num_of_Z 1000) === num_of_Z (-100))%js
  | Throw _ => false
  end = true.
Proof. vm_compute. reflexivity. Qed.

(** The zoom clamp has the same effect: from zoom 80 a candidate zoom of 120
    is clamped to 100 while the center is computed for 120, and the time
    under the pointer moves from [52.5] to [52 + 5/6]. *)
Example wheel_zoom_clamped_moves_pointer_time :
  match
    Part000._handleWheel layout
      (canvas_at [mk "A" 0 100] (num_of_Z 50) (num_of_Z 80))
      (pointer_at 700 8 (-100))
  with
  | Normal this' =>
      (Part000.zoom (Part000.state this') === hundred)%js
      && (Viewport.pixelToTime (num_of_Z 700) (num_of_Z 50) (num_of_Z 80)
            (num_of_Z 1000) === ratio 105 2)%js
      && (Viewport.pixelToTime (num_of_Z 700)
            (Part000.center (Part000.state this'))
            (Part000.zoom (Part000.state this'))
            (num_of_Z 1000) === ratio 317 6)%js
  | Throw _ => false
  end = true.
Proof. vm_compute. reflexivity. Qed.

Lemma handleWheel_keeps_pointer_time_witness :
  exists this',
    Part000._handleWheel layout
      (canvas_at [mk "A" 0 100] (num_of_Z 50) one) (pointer_at 600 8 (-200))
    = Normal this'
    /\ Part000.props this'
       = Part000.props (canvas_at [mk "A" 0 100] (num_of_Z 50) one)
    /\ Part000.zoom (Part000.state this')
       = Part000.updatedZoom (canvas_at [mk "A" 0 100] (num_of_Z 50) one)
           (pointer_at 600 8 (-200))
    /\ Part000.center (Part000.state this')
       = (num_of_Z 50
          + Part000.mouseOffsetFromCenter
              (canvas_at [mk "A" 0 100] (num_of_Z 50) one)
              (pointer_at 600 8 (-200)) / one
          - Part000.mouseOffsetFromCenter
              (canvas_at [mk "A" 0 100] (num_of_Z 50) one)
              (pointer_at 600 8 (-200))
            / Part000.updatedZoom
                (canvas_at [mk "A" 0 100] (num_of_Z 50) one)
                (pointer_at 600 8 (-200)))%js
    /\ Viewport.pixelToTime
         (fst (Part000._getCanvasMousePos (pointer_at 600 8 (-200))))
         (Part000.center (Part000.state this'))
         (Part000.zoom (Part000.state this'))
         (Part000.viewportWidth (Part000.props this'))
       = Viewport.pixelToTime
           (fst (Part000._getCanvasMousePos (pointer_at 600 8 (-200))))
           (num_of_Z 50) one (num_of_Z 1000).
Proof.
  eapply (handleWheel_keeps_pointer_time layout
            (canvas_at [mk "A" 0 100] (num_of_Z 50) one)
            (pointer_at 600 8 (-200)));
    [vm_compute; reflexivity | reflexivity..].
Defined.

(** C7, refuted.  The pointer rests on the bar of [A] and no drag is in
    progress: the hit-test finds [A], and after the move [hovered] is still
    empty. *)
Lemma hover_is_not_stored_when_idle :
  Part000.dragging
    (Part000.state (canvas_at [mk "A" 0 100] (num_of_Z 500) one)) = false
  /\ Part000._getIntersectingMeasure
       (canvas_at [mk "A" 0 100] (num_of_Z 500) one) (pointer_at 50 8 0)
     = Some {| measure := mk "A" 0 100; stackIndex := 0 |}
  /\ (Part000.hovered ∘ Part000.state)
       <$> result (Part000._mouseMove layout toFixed_unused
                     (canvas_at [mk "A" 0 100] (num_of_Z 500) one)
                     (pointer_at 50 8 0))
     = Some None.
Proof. repeat split. Qed.

Lemma mouseMove_idle_keeps_state_witness :
  exists this',
    Part000._mouseMove layout toFixed_unused
      (canvas_at [mk "A" 0 100] (num_of_Z 500) one) (pointer_at 50 8 0)
    = Normal this'
    /\ Part000.state this'
       = Part000.state (canvas_at [mk "A" 0 100] (num_of_Z 500) one)
    /\ Part000.props this'
       = Part000.props (canvas_at [mk "A" 0 100] (num_of_Z 500) one)
    /\ Part000._renderedShapes this'
       = Part000._renderedShapes
           (canvas_at [mk "A" 0 100] (num_of_Z 500) one)
    /\ (Part000._mouseX this', Part000._mouseY this')
       = Part000._getCanvasMousePos (pointer_at 50 8 0)
    /\ Part000.textContent <$> Part000._tooltip this'
       = (fun t =>
            match
              Part000._getIntersectingMeasure
                (canvas_at [mk "A" 0 100] (num_of_Z 500) one)
                (pointer_at 50 8 0)
            with
            | Some h =>
                toFixed_unused (duration (measure h)) 1
                  +:+ "ms " +:+ name (measure h)
            | None => Part000.textContent t
            end)
           <$> Part000._tooltip
                 (canvas_at [mk "A" 0 100] (num_of_Z 500) one).
Proof.
  apply (mouseMove_idle_keeps_state layout toFixed_unused
           (canvas_at [mk "A" 0 100] (num_of_Z 500) one)
           (pointer_at 50 8 0)).
  reflexivity.
Defined.

(** C8.  The state a freshly mounted component hands to its renderers is
    the one the constructor built, unclamped: with persisted values a zoom
    above [MAX_ZOOM] and a center beyond the end of the trace; with no
    persisted value a zoom below the minimum zoom and, again, a center
    beyond the end.  The canvas component does the same. *)
Theorem initial_state_is_not_clamped :
  match
    Trace.mount layout one (stored (num_of_Z 5000) (num_of_Z 1000))
      (trace_props [mk "A" 0 100] true 1000)
  with
  | Normal (Trace.Rendered e minZoom s) =>
      (hundred <? Trace.zoom s)%js && (endOffset e <? Trace.center s)%js
  | _ => false
  end = true
  /\ match
       Trace.mount layout one no_storage
         (trace_props [mk "A" 0 100] false 1000)
     with
     | Normal (Trace.Rendered e minZoom s) =>
         (Trace.zoom s <? minZoom)%js && (endOffset e <? Trace.center s)%js
     | _ => false
     end = true
  /\ match
       Part000._getExtents layout (app_props [mk "A" 0 100]),
       Part000.constructor layout
         (stored (num_of_Z 5000) (num_of_Z 1000))
         (app_props [mk "A" 0 100])
     with
     | Normal e, Normal this =>
         (Part000.MAX_ZOOM <? Part000.zoom (Part000.state this))%js
         && (endOffset e <? Part000.center (Part000.state this))%js
     | _, _ => false
     end = true.
Proof. repeat split. Qed.

(** C9, refuted.  In the nested scenario the last element by start time is
    [C], which ends at 8, while [A] ends at 10: [endOffset] is 8 and the
    greatest end time of the trace is 10. *)
Lemma endOffset_is_not_max_end_time :
  sorted_by_start (layout nested_trace) = true
  /\ match extents_of (layout nested_trace) with
     | Normal e =>
         (endOffset e === num_of_Z 8)%js
         && (max_end_time (layout nested_trace) === num_of_Z 10)%js
         && (startOffset e === min_start_time (layout nested_trace))%js
         && negb (endOffset e === max_end_time (layout nested_trace))%js
     | Throw _ => false
     end = true.
Proof. split; reflexivity. Qed.

Lemma extents_of_first_and_last_witness :
  exists first final e,
    layout nested_trace !! 0%nat = Some first
    /\ last (layout nested_trace) = Some final
    /\ extents_of (layout nested_trace) = Normal e
    /\ startOffset e = startTime (measure first)
    /\ endOffset e = endTime (measure final)
    /\ size e = (endOffset e - startOffset e)%js
    /\ (if sorted_by_start (layout nested_trace)
        then startOffset e = min_start_time (layout nested_trace)
        else True).
Proof.
  apply (extents_of_first_and_last (layout nested_trace)).
  vm_compute. discriminate.
Defined.

Lemma handleWheel_at_zoom_limit_witness :
  Part000._handleWheel layout
    (canvas_at [mk "A" 0 100] (num_of_Z 50) hundred)
    (pointer_at 600 8 (-100))
  = Normal (canvas_at [mk "A" 0 100] (num_of_Z 50) hundred).
Proof.
  apply (handleWheel_at_zoom_limit layout
           (canvas_at [mk "A" 0 100] (num_of_Z 50) hundred)
           (pointer_at 600 8 (-100))).
  reflexivity.
Defined.

End Concrete.


(** ** Rational arithmetic behind the geometry *)

Lemma this_plus (a b : Qc) : (this (a + b)%Qc == this a + this b)%Q.
Proof. apply Qred_correct. Qed.
Lemma this_mult (a b : Qc) : (this (a * b)%Qc == this a * this b)%Q.
Proof. apply Qred_correct. Qed.
Lemma this_opp (a : Qc) : (this (- a)%Qc == - this a)%Q.
Proof. apply Qred_correct. Qed.
Lemma this_minus (a b : Qc) : (this (a - b)%Qc == this a - this b)%Q.
Proof. unfold Qcminus. rewrite this_plus, this_opp. reflexivity. Qed.
Lemma this_Q2Qc (q : Q) : (this (Q2Qc q) == q)%Q.
Proof. apply Qred_correct. Qed.

Lemma this_div (a b : Qc) : (this (a / b)%Qc == this a / this b)%Q.
Proof.
  unfold Qcdiv, Qcinv. rewrite this_mult, this_Q2Qc. reflexivity.
Qed.

Lemma le_Fin (a b : Qc) : (Fin a <=? Fin b)%js = true <-> (a <= b)%Qc.
Proof.
  cbn. destruct (Qc_ltb_reflect b a) as [H|H]; cbn.
  - split; [done|]. intros H'. by apply Qcle_not_lt in H'.
  - split; [|done]. intros _. by apply Qcnot_lt_le.
Qed.

Lemma lt_Fin (a b : Qc) : (Fin a <? Fin b)%js = true <-> (a < b)%Qc.
Proof. cbn. by destruct (Qc_ltb_reflect a b). Qed.

(** Order goals over [Qc] brought down to [Q]. *)
Ltac qc_to_q :=
  unfold Qcle, Qclt in *;
  repeat match goal with
    | H : context [this (_ + _)%Qc] |- _ => rewrite this_plus in H
    | H : context [this (_ * _)%Qc] |- _ => rewrite this_mult in H
    | H : context [this (_ - _)%Qc] |- _ => rewrite this_minus in H
    | H : context [this (_ / _)%Qc] |- _ => rewrite this_div in H
    | H : context [this (- _)%Qc] |- _ => rewrite this_opp in H
    | H : context [this (Q2Qc _)] |- _ => rewrite this_Q2Qc in H
    | |- context [this (_ + _)%Qc] => rewrite this_plus
    | |- context [this (_ * _)%Qc] => rewrite this_mult
    | |- context [this (_ - _)%Qc] => rewrite this_minus
    | |- context [this (_ / _)%Qc] => rewrite this_div
    | |- context [this (- _)%Qc] => rewrite this_opp
    | |- context [this (Q2Qc _)] => rewrite this_Q2Qc
    end.

Lemma sub_Fin (a b : Qc) : (Fin a - Fin b)%js = Fin (a - b).
Proof. reflexivity. Qed.

Lemma mul_Fin (a b : Qc) : (Fin a * Fin b)%js = Fin (a * b).
Proof. reflexivity. Qed.

Lemma strict_eq_false_neq (u v : Qc) : (Fin u === Fin v)%js = false -> u <> v.
Proof. cbn. by destruct (Qc_eq_bool_reflect u v). Qed.

Lemma le_Fin_bounds (lo hi v : num) :
  isFinite lo = true -> isFinite hi = true ->
  (lo <=? v)%js = true -> (v <=? hi)%js = true -> isFinite v = true.
Proof. destruct lo, hi, v; num_crush. Qed.

Lemma clamp_NegInf (lo hi : num) :
  (lo <=? hi)%js = true -> Math_max lo (Math_min hi NegInf) = lo.
Proof. destruct lo, hi; num_crush. Qed.

Lemma clamp_PosInf (lo hi : num) :
  (lo <=? hi)%js = true -> Math_max lo (Math_min hi PosInf) = hi.
Proof. unfold Math_max, Math_min. destruct lo, hi; num_crush. Qed.

Lemma add_Fin (a b : Qc) : (Fin a + Fin b)%js = Fin (a + b).
Proof. reflexivity. Qed.
Lemma neg_Fin (a : Qc) : (- Fin a)%js = Fin (- a).
Proof. reflexivity. Qed.


(** ** The canvas component: geometry and hit-testing *)

Section Part000Geometry.

Import Part000.

Variable transformTrace : list Measure -> list RenderableMeasure.
Variable toFixed : num -> nat -> string.

Lemma lane_below (this : Component) (a b : RenderableMeasure) :
  (stackIndex a < stackIndex b)%nat ->
  (y (_getLayout this a) + height (_getLayout this a)
   <? y (_getLayout this b))%js = true.
Proof.
  intros Hlt. cbn.
  destruct (Qc_ltb_reflect
    (Q2Qc (inject_Z (Z.of_nat (stackIndex a))) * (Q2Qc (inject_Z 16) + Q2Qc
        (inject_Z 1)) + Q2Qc (inject_Z 16))
    (Q2Qc (inject_Z (Z.of_nat (stackIndex b))) * (Q2Qc (inject_Z 16) + Q2Qc
        (inject_Z 1)))) as [|Hn]; [done|].
  destruct Hn. qc_to_q.
  assert (inject_Z (Z.of_nat (stackIndex a)) + 1 <= inject_Z (Z.of_nat
      (stackIndex b)))%Q.
  { change 1%Q with (inject_Z 1). rewrite <- inject_Z_plus. rewrite <-
      Zle_Qle. lia. }
  change (inject_Z 16) with 16%Q. change (inject_Z 1) with 1%Q. lra.
Qed.

(** X1.  [_getLayout] and the hit test of [_getIntersectingMeasure]: the lanes
    do not overlap.  When a pointer height that is a number lies within
    the vertical span of the bars of two measures, wherever the pointer is
    horizontally, the two measures have the same [stackIndex]. *)
Theorem one_lane_per_point (this : Component) (a b : RenderableMeasure)
    (pxa pxb py : num) :
  isNaN py = false ->
  contains (_getLayout this a) pxa py = true ->
  contains (_getLayout this b) pxb py = true ->
  stackIndex a = stackIndex b.
Proof.
  unfold contains. intros Hpy Ha Hb.
  apply negb_true_iff, orb_false_iff in Ha as [_ Ha], Hb as [_ Hb].
  apply orb_false_iff in Ha as [Ha1 Ha2], Hb as [Hb1 Hb2].
  destruct (Nat.lt_trichotomy (stackIndex a) (stackIndex b)) as [Hlt|[Heq|Hgt]];
    [|done|]; exfalso.
  - pose proof (lane_below this a b Hlt) as H.
    revert Hpy Ha2 Hb1 H. generalize (y (_getLayout this a) + height
        (_getLayout this a))%js (y (_getLayout this b)).
    intros u v. destruct u, v, py; num_crush.
  - pose proof (lane_below this b a Hgt) as H.
    revert Hpy Hb2 Ha1 H. generalize (y (_getLayout this b) + height
        (_getLayout this b))%js (y (_getLayout this a)).
    intros u v. destruct u, v, py; num_crush.
Qed.

Lemma half_finite (v : num) :
  isFinite v = true -> exists h, (v / num_of_Z 2)%js = Fin h.
Proof.
  intros [q ->]%isFinite_inv. eexists. change (num_of_Z 2) with (Fin (Q2Qc 2)).
  apply div_Fin. done.
Qed.


Lemma renderedShapes_after_render (this : Component) (l : Layout)
    (m : RenderableMeasure) :
  _canvas this = true ->
  (l, m) ∈ _renderedShapes (_renderCanvas transformTrace this)
  <-> m ∈ transformTrace (trace (props this))
      /\ l = _getLayout this m /\ inView l = true.
Proof.
  intros Hcanvas. unfold _renderCanvas. rewrite Hcanvas.
  cbn [_renderedShapes]. rewrite list_elem_of_omap. split.
  - intros (m' & Hin & Hsome).
    destruct (inView (_getLayout this m')) eqn:Hview; [|done].
    by injection Hsome as <- <-.
  - intros (Hin & -> & Hview). exists m. by rewrite Hview.
Qed.

(** X3.  [_renderCanvas] then [_getIntersectingMeasure]: with the canvas
    mounted, the hit test against the shapes just drawn returns a measure
    of the laid-out trace that is in view and whose bar, as [_getLayout]
    gives it now, contains the pointer; and it returns nothing only when
    no measure in view has such a bar. *)
Theorem hit_test_after_render (this : Component) (event : MouseEvent) :
  _canvas this = true ->
  match
    _getIntersectingMeasure (_renderCanvas transformTrace this) event
  with
  | Some m =>
      m ∈ transformTrace (trace (props this))
      /\ inView (_getLayout this m) = true
      /\ contains (_getLayout this m)
           (_getCanvasMousePos event).1 (_getCanvasMousePos event).2 = true
  | None =>
      forall m,
        m ∈ transformTrace (trace (props this)) ->
        inView (_getLayout this m) = true ->
        contains (_getLayout this m)
          (_getCanvasMousePos event).1 (_getCanvasMousePos event).2 = false
  end.
Proof.
  intros Hcanvas. unfold _getIntersectingMeasure. cbn [_getCanvasMousePos fst
      snd].
  destruct (find _ _) as [[l m]|] eqn:Hfind.
  - apply find_some in Hfind as [Hin Hhit].
    apply list_elem_of_In, renderedShapes_after_render in Hin as (Hm & -> &
        Hview);
      [|done].
    done.
  - intros m Hm Hview.
    assert (Hin : (_getLayout this m, m)
                  ∈ _renderedShapes (_renderCanvas transformTrace this))
      by (by apply renderedShapes_after_render).
    apply list_elem_of_In in Hin.
    apply (find_none _ _ Hfind) in Hin.
    exact Hin.
Qed.

Lemma y_not_negative (this : Component) (m : RenderableMeasure) :
  (num_of_Z 0 <=? y (_getLayout this m))%js = true.
Proof.
  cbn.
  match goal with |- negb (Qc_ltb ?u ?v) = true =>
    destruct (Qc_ltb_reflect u v) as [Hbad|]; [exfalso|done] end.
  qc_to_q. unfold inject_Z in *.
  assert (0 <= inject_Z (Z.of_nat (stackIndex m)))%Q.
  { change 0%Q with (inject_Z 0). rewrite <- Zle_Qle. lia. }
  unfold inject_Z in *. nra.
Qed.

(** X4.  [_getIntersectingMeasure] after [_renderCanvas]: with the canvas
    mounted, a pointer whose canvas height is below 0, that is above the
    top edge, hits no measure, whatever the trace and the view. *)
Theorem hit_test_above_canvas (this : Component) (event : MouseEvent) :
  _canvas this = true ->
  ((_getCanvasMousePos event).2 <? num_of_Z 0)%js = true ->
  _getIntersectingMeasure (_renderCanvas transformTrace this) event = None.
Proof.
  intros Hcanvas Hneg. unfold _getIntersectingMeasure.
  cbn [_getCanvasMousePos fst snd] in *.
  destruct (find _ _) as [[l m]|] eqn:Hfind; [exfalso|done].
  apply find_some in Hfind as [Hin Hhit].
  apply list_elem_of_In, renderedShapes_after_render in Hin
    as (_ & -> & _); [|done].
  apply negb_true_iff, orb_false_iff in Hhit as [_ Hhit].
  apply orb_false_iff in Hhit as [Hy _]. cbn [fst] in Hy.
  pose proof (y_not_negative this m) as Hy0.
  revert Hneg Hy Hy0.
  generalize (y (_getLayout this m)) (clientY event - rect_top event)%js.
  intros u v. change (num_of_Z 0) with (Fin 0%Qc). destruct u, v; num_crush.
Qed.
End Part000Geometry.

(** ** The canvas component: panning, zooming and the bounds kept *)

Section Part000Navigation.

Import Part000.

Variable transformTrace : list Measure -> list RenderableMeasure.
Variable toFixed : num -> nat -> string.

(** The quotient by a positive number has the sign of the dividend. *)
Lemma Qcdiv_nonneg (a z : Qc) : (0 < z)%Qc -> (0 <= a)%Qc -> (0 <= a / z)%Qc.
Proof.
  intros Hz Ha. qc_to_q. unfold Qdiv. apply Qmult_le_0_compat; [done|].
  by apply Qlt_le_weak, Qinv_lt_0_compat.
Qed.

Lemma Qcdiv_nonpos (a z : Qc) : (0 < z)%Qc -> (a <= 0)%Qc -> (a / z <= 0)%Qc.
Proof.
  intros Hz Ha. qc_to_q. unfold Qdiv.
  pose proof (Qinv_lt_0_compat _ Hz) as Hinv. nra.
Qed.

(** Clamping a number that is not above a point within the bounds gives a
    number that is not above it, and likewise from below. *)
Lemma clamp_not_above (lo hi : num) (c v : Qc) :
  (lo <=? Fin c)%js = true -> (Fin c <=? hi)%js = true -> (v <= c)%Qc ->
  exists c', Math_max lo (Math_min hi (Fin v)) = Fin c' /\ (c' <= c)%Qc.
Proof.
  unfold Math_max, Math_min.
  destruct lo as [| | |l], hi as [| | |h]; cbn; try done; intros Hlo Hhi Hv;
    repeat match goal with
      | |- context [Qc_ltb ?a ?b] => destruct (Qc_ltb_reflect a b); cbn
      | H : context [Qc_ltb ?a ?b] |- _ =>
          destruct (Qc_ltb_reflect a b); cbn in H
      end;
    try done; eexists; (split; [reflexivity|]);
    unfold Qcle, Qclt in *; lra.
Qed.

Lemma clamp_not_below (lo hi : num) (c v : Qc) :
  (lo <=? Fin c)%js = true -> (Fin c <=? hi)%js = true -> (c <= v)%Qc ->
  exists c', Math_max lo (Math_min hi (Fin v)) = Fin c' /\ (c <= c')%Qc.
Proof.
  unfold Math_max, Math_min.
  destruct lo as [| | |l], hi as [| | |h]; cbn; try done; intros Hlo Hhi Hv;
    repeat match goal with
      | |- context [Qc_ltb ?a ?b] => destruct (Qc_ltb_reflect a b); cbn
      | H : context [Qc_ltb ?a ?b] |- _ =>
          destruct (Qc_ltb_reflect a b); cbn in H
      end;
    try done; eexists; (split; [reflexivity|]);
    unfold Qcle, Qclt in *; lra.
Qed.

(** At a fixed positive zoom the bars move against the center: with the
    center further left, every bar is laid out further right or where it
    was, with the width and the lane it had. *)
Lemma getLayout_after_pan (this this' : Component) (m : RenderableMeasure)
    (c c' : Qc) :
  props this' = props this ->
  zoom (state this') = zoom (state this) ->
  isFinite (zoom (state this)) = true ->
  (num_of_Z 0 <? zoom (state this))%js = true ->
  isFinite (viewportWidth (props this)) = true ->
  center (state this) = Fin c ->
  center (state this') = Fin c' ->
  isFinite (startTime (measure m)) = true ->
  width (_getLayout this' m) = width (_getLayout this m)
  /\ y (_getLayout this' m) = y (_getLayout this m)
  /\ ((c' <= c)%Qc ->
      (x (_getLayout this m) <=? x (_getLayout this' m))%js = true)
  /\ ((c <= c')%Qc ->
      (x (_getLayout this' m) <=? x (_getLayout this m))%js = true).
Proof.
  intros Hp Hz' [z Hz]%isFinite_inv Hpos [h Hh]%half_finite Hc Hc'
    [s Hs]%isFinite_inv.
  unfold _getLayout. cbn [x y width]. rewrite Hp, Hz'.
  split; [done|]. split; [done|].
  unfold PX_PER_MS. rewrite !mul_1_r, Hz, Hc, Hc', Hs, Hh.
  rewrite Hz in Hpos. change (num_of_Z 0) with (Fin 0%Qc) in Hpos.
  apply lt_Fin in Hpos.
  rewrite !sub_Fin, !mul_Fin, !add_Fin.
  split; intros Hle; apply le_Fin; qc_to_q; nra.
Qed.

(** X5.  [_mouseMove] while dragging: from a finite center within the
    extents, at a finite positive zoom, a move by a finite [movementX]
    succeeds, sets [dragMoved], and keeps the props and the zoom; every bar
    with a finite start time keeps its width and its lane, and is laid out
    where it was or further in the direction of the move: not further left
    when [movementX] is not negative, not further right when it is
    negative.  The center clamp may stop the bars, it never turns them
    back. *)
Theorem drag_moves_bars_toward_pointer (this : Component)
    (event : MouseEvent) (e : Extents) :
  dragging (state this) = true ->
  _getExtents transformTrace (props this) = Normal e ->
  (startOffset e <=? center (state this))%js = true ->
  (center (state this) <=? endOffset e)%js = true ->
  isFinite (center (state this)) = true ->
  isFinite (zoom (state this)) = true ->
  (num_of_Z 0 <? zoom (state this))%js = true ->
  isFinite (viewportWidth (props this)) = true ->
  isFinite (movementX event) = true ->
  exists this',
    _mouseMove transformTrace toFixed this event = Normal this'
    /\ dragMoved (state this') = true
    /\ props this' = props this
    /\ zoom (state this') = zoom (state this)
    /\ forall m,
         isFinite (startTime (measure m)) = true ->
         width (_getLayout this' m) = width (_getLayout this m)
         /\ y (_getLayout this' m) = y (_getLayout this m)
         /\ if (movementX event <? num_of_Z 0)%js
            then (x (_getLayout this' m) <=? x (_getLayout this m))%js
                 = true
            else (x (_getLayout this m) <=? x (_getLayout this' m))%js
                 = true.
Proof.
  intros Hdrag He Hlo Hhi [c Hc]%isFinite_inv Hzfin Hpos Hw
    [d Hd]%isFinite_inv.
  destruct (isFinite_inv _ Hzfin) as [z Hz].
  assert (Hz0 : (0 < z)%Qc).
  { rewrite Hz in Hpos. by apply lt_Fin in Hpos. }
  assert (Hcand : (center (state this)
                   - movementX event / PX_PER_MS / zoom (state this))%js
                  = Fin (c - d / z)).
  { unfold PX_PER_MS. rewrite div_1_r, Hc, Hd, Hz, div_Fin, sub_Fin; [done|].
    by apply Qclt_not_eq, not_eq_sym in Hz0. }
  rewrite Hc in Hlo, Hhi.
  assert (Hstep : exists c',
             Math_max (startOffset e) (Math_min (endOffset e)
                                         (Fin (c - d / z))) = Fin c'
             /\ if Qc_ltb d 0 then (c <= c')%Qc else (c' <= c)%Qc).
  { destruct (Qc_ltb_reflect d 0) as [Hneg|Hnn].
    - apply clamp_not_below; [done..|].
      pose proof (Qcdiv_nonpos d z Hz0 (Qclt_le_weak _ _ Hneg)).
      qc_to_q; lra.
    - apply clamp_not_above; [done..|].
      pose proof (Qcdiv_nonneg d z Hz0 (Qcnot_lt_le _ _ Hnn)).
      qc_to_q; lra. }
  destruct Hstep as (c' & Hclamp & Hdir).
  unfold _mouseMove, _clampCenter. rewrite Hdrag, He, Hcand.
  cbn [mbind completion_bind mret completion_ret]. rewrite Hclamp.
  destruct (_getCanvasMousePos event) as [mx my].
  eexists. split; [reflexivity|].
  match goal with |- context [dragMoved (state ?t)] => set (this' := t) end.
  do 3 (split; [done|]). intros m Hm.
  destruct (getLayout_after_pan this this' m c c') as (Hwidth & Hy & Hr & Hl);
    try done.
  do 2 (split; [done|]).
  rewrite Hd. change (num_of_Z 0) with (Fin 0%Qc). cbn [JS.lt].
  destruct (Qc_ltb d 0); auto.
Qed.

(** X6.  [_handleKey] on [a] and [d]: from a finite center within the
    extents, at a finite positive zoom and over a finite size that is not
    negative, the key is handled without an error and keeps the props and
    the zoom; every bar with a finite start time keeps its width and its
    lane, and is laid out where it was or further right for [a], where it
    was or further left for [d]. *)
Theorem key_pan_moves_bars_one_way (this : Component) (e : Extents)
    (key : string) :
  key = "a" \/ key = "d" ->
  _getExtents transformTrace (props this) = Normal e ->
  (startOffset e <=? center (state this))%js = true ->
  (center (state this) <=? endOffset e)%js = true ->
  isFinite (center (state this)) = true ->
  isFinite (zoom (state this)) = true ->
  (num_of_Z 0 <? zoom (state this))%js = true ->
  isFinite (viewportWidth (props this)) = true ->
  isFinite (size e) = true ->
  (num_of_Z 0 <=? size e)%js = true ->
  exists this',
    _handleKey transformTrace this key = Normal this'
    /\ props this' = props this
    /\ zoom (state this') = zoom (state this)
    /\ forall m,
         isFinite (startTime (measure m)) = true ->
         width (_getLayout this' m) = width (_getLayout this m)
         /\ y (_getLayout this' m) = y (_getLayout this m)
         /\ if String.eqb key "a"
            then (x (_getLayout this m) <=? x (_getLayout this' m))%js
                 = true
            else (x (_getLayout this' m) <=? x (_getLayout this m))%js
                 = true.
Proof.
  intros Hkey He Hlo Hhi [c Hc]%isFinite_inv Hzfin Hpos Hw
    [sz Hsz]%isFinite_inv Hsize.
  destruct (isFinite_inv _ Hzfin) as [z Hz].
  assert (Hz0 : (0 < z)%Qc).
  { rewrite Hz in Hpos. by apply lt_Fin in Hpos. }
  assert (Hzne : z <> 0%Qc) by (by apply Qclt_not_eq, not_eq_sym in Hz0).
  assert (Hsz0 : (0 <= sz)%Qc).
  { rewrite Hsz in Hsize. by apply le_Fin in Hsize. }
  assert (Hpan : (ratio 1 20 * size e / zoom (state this))%js
                 = Fin (Q2Qc (1 # 20) * sz / z)).
  { unfold ratio. by rewrite Hsz, Hz, mul_Fin, div_Fin. }
  assert (Hpan0 : (0 <= Q2Qc (1 # 20) * sz / z)%Qc).
  { apply Qcdiv_nonneg; [done|]. qc_to_q. nra. }
  rewrite Hc in Hlo, Hhi.
  unfold _handleKey, _clampCenter. rewrite He.
  cbn [mbind completion_bind mret completion_ret].
  destruct Hkey as [-> | ->]; cbn [String.eqb Ascii.eqb Bool.eqb andb];
    rewrite Hpan, Hc.
  - rewrite sub_Fin.
    destruct (clamp_not_above (startOffset e) (endOffset e) c
                (c - Q2Qc (1 # 20) * sz / z)) as (c' & -> & Hdir);
      [done..| |].
    { qc_to_q; lra. }
    eexists. split; [reflexivity|].
    match goal with |- props ?t = _ /\ _ => set (this' := t) end.
    do 2 (split; [done|]). intros m Hm.
    destruct (getLayout_after_pan this this' m c c')
      as (Hwidth & Hy & Hr & Hl); try done.
    do 2 (split; [done|]). auto.
  - rewrite add_Fin.
    destruct (clamp_not_below (startOffset e) (endOffset e) c
                (c + Q2Qc (1 # 20) * sz / z)) as (c' & -> & Hdir);
      [done..| |].
    { qc_to_q; lra. }
    eexists. split; [reflexivity|].
    match goal with |- props ?t = _ /\ _ => set (this' := t) end.
    do 2 (split; [done|]). intros m Hm.
    destruct (getLayout_after_pan this this' m c c')
      as (Hwidth & Hy & Hr & Hl); try done.
    do 2 (split; [done|]). auto.
Qed.

(** X7.  [_handleKey] on [w] and [s]: when both half and twice the current
    zoom are within [MIN_ZOOM] and [MAX_ZOOM], zooming in then out, and
    out then in, each gives back the component exactly as it was. *)
Theorem key_zoom_round_trip (this : Component) (e : Extents) :
  _getExtents transformTrace (props this) = Normal e ->
  (MIN_ZOOM <=? zoom (state this) / num_of_Z 2)%js = true ->
  (zoom (state this) * num_of_Z 2 <=? MAX_ZOOM)%js = true ->
  (this' ← _handleKey transformTrace this "w";
   _handleKey transformTrace this' "s") = Normal this
  /\ (this' ← _handleKey transformTrace this "s";
      _handleKey transformTrace this' "w") = Normal this.
Proof.
  intros He Hlo Hhi.
  destruct (zoom (state this)) as [| | |z] eqn:Hz; try done.
  change (num_of_Z 2) with (Fin (Q2Qc 2)) in *.
  rewrite div_Fin in Hlo by done. rewrite mul_Fin in Hhi.
  unfold MIN_ZOOM, MAX_ZOOM, ratio, num_of_Z in Hlo, Hhi.
  apply le_Fin in Hlo, Hhi.
  assert (Hw : _clampZoom (Fin (z * Q2Qc 2)) = Fin (z * Q2Qc 2)).
  { apply Part000_clampZoom_in_range; apply le_Fin; [|done].
    qc_to_q. unfold inject_Z, Qdiv in *; change (/ 2)%Q with (1 # 2)%Q in *;
        lra. }
  assert (Hs : _clampZoom (Fin (z / Q2Qc 2)) = Fin (z / Q2Qc 2)).
  { apply Part000_clampZoom_in_range; apply le_Fin; [done|].
    qc_to_q. unfold inject_Z, Qdiv in *; change (/ 2)%Q with (1 # 2)%Q in *;
        lra. }
  assert (Hz1 : _clampZoom (Fin z) = Fin z).
  { apply Part000_clampZoom_in_range; apply le_Fin;
      qc_to_q; unfold inject_Z, Qdiv in *; change (/ 2)%Q with (1 # 2)%Q in *;
          lra. }
  assert (Hback1 : (z * Q2Qc 2 / Q2Qc 2)%Qc = z) by (by field).
  assert (Hback2 : (z / Q2Qc 2 * Q2Qc 2)%Qc = z) by (by field).
  unfold _handleKey. rewrite He.
  cbn [mbind completion_bind mret completion_ret String.eqb Ascii.eqb
         Bool.eqb andb setState props state set_zoom zoom].
  rewrite He. cbn [mbind completion_bind].
  rewrite Hz. change (num_of_Z 2) with (Fin (Q2Qc 2)).
  rewrite mul_Fin, div_Fin, Hw, Hs by done.
  rewrite mul_Fin, div_Fin, Hback1, Hback2, Hz1 by done.
  rewrite <- Hz.
  destruct this as [p [] ? ? ? ? ?]; split; reflexivity.
Qed.

(** X8.  [_handleWheel] with [deltaY] of exactly 200: the zoom factor
    [1 - deltaY / 200] is 0, so from a positive zoom other than [MIN_ZOOM]
    the zoom becomes [MIN_ZOOM] and the center is divided by a zero zoom:
    it becomes [NaN] when the pointer is at the middle of the viewport, and
    otherwise jumps to the start or to the end of the extents. *)
Theorem wheel_with_zero_factor (this : Component) (event : MouseEvent)
    (e : Extents) :
  _getExtents transformTrace (props this) = Normal e ->
  (startOffset e <=? endOffset e)%js = true ->
  isFinite (center (state this)) = true ->
  isFinite (zoom (state this)) = true ->
  (num_of_Z 0 <? zoom (state this))%js = true ->
  (MIN_ZOOM === zoom (state this))%js = false ->
  isFinite (mouseOffsetFromCenter this event) = true ->
  (deltaY event === num_of_Z 200)%js = true ->
  exists this',
    _handleWheel transformTrace this event = Normal this'
    /\ zoom (state this') = MIN_ZOOM
    /\ center (state this')
       = if (mouseOffsetFromCenter this event === num_of_Z 0)%js then NaN
         else if (num_of_Z 0 <? mouseOffsetFromCenter this event)%js
              then startOffset e
              else endOffset e.
Proof.
  intros He Hord [c Hc]%isFinite_inv [z Hz]%isFinite_inv Hz0 Hmin
    [d Hd]%isFinite_inv Hdy.
  apply strict_eq_true in Hdy.
  rewrite Hz in Hz0. apply lt_Fin, Qclt_not_eq in Hz0.
  assert (Hz0' : z <> 0%Qc) by (intros ->; by apply Hz0).
  assert (Huz : updatedZoom this event = Fin 0%Qc).
  { unfold updatedZoom. rewrite Hz, Hdy. cbn. f_equal.
    apply Qc_is_canon. qc_to_q. unfold inject_Z. ring. }
  assert (Hclamp : _clampZoom (Fin 0%Qc) = MIN_ZOOM) by reflexivity.
  assert (Huc : updatedCenter this event
                = if Qc_eq_bool d 0 then NaN
                  else if Qc_ltb 0 d then NegInf else PosInf).
  { unfold updatedCenter, PX_PER_MS. rewrite !div_1_r, Huz, Hc, Hd, Hz.
    rewrite (div_Fin d z) by done. cbn.
    destruct (Qc_eq_bool_reflect 0 0) as [_|]; [|done].
    destruct (Qc_eq_bool_reflect d 0) as [->|Hd0]; [done|].
    destruct (Qc_ltb_reflect d 0) as [Hneg|Hpos], (Qc_ltb_reflect 0 d) as
        [Hp|Hn];
      try done; exfalso.
    - by apply Qclt_not_le in Hneg; apply Hneg, Qclt_le_weak.
    - apply Hd0. apply Qcle_antisym; by apply Qcnot_lt_le. }
  unfold _handleWheel. rewrite Huz, Hclamp, Hmin. cbn [negb].
  unfold _clampCenter. rewrite He. cbn [mbind completion_bind mret
      completion_ret].
  eexists. split; [reflexivity|]. split; [done|].
  cbn [setState state set_center set_zoom center]. rewrite Huc, Hd.
  change (num_of_Z 0) with (Fin 0%Qc). cbn [strict_eq lt].
  destruct (Qc_eq_bool d 0).
  { by rewrite Math_min_NaN_r, Math_max_NaN_r. }
  destruct (Qc_ltb 0 d); [by apply clamp_NegInf|by apply clamp_PosInf].
Qed.
Lemma viewport_ok_set_zoom (e : Extents) (s : State) (v : num) :
  isNaN v = false -> viewport_ok e s = true ->
  viewport_ok e (set_zoom (_clampZoom v) s) = true.
Proof.
  intros Hv Hok. unfold viewport_ok in *. cbn [zoom center set_zoom].
  apply andb_true_iff in Hok as [Hok Hc2]. apply andb_true_iff in Hok as [Hok
      Hc1].
  destruct (clamp_within MIN_ZOOM MAX_ZOOM v Hv eq_refl) as [H1 H2].
  unfold _clampZoom. by rewrite H1, H2, Hc1, Hc2.
Qed.

Lemma viewport_ok_set_center (e : Extents) (s : State) (v : num) :
  isNaN v = false -> (startOffset e <=? endOffset e)%js = true ->
  viewport_ok e s = true ->
  viewport_ok e
    (set_center (Math_max (startOffset e) (Math_min (endOffset e) v)) s)
  = true.
Proof.
  intros Hv Hord Hok. unfold viewport_ok in *. cbn [zoom center set_center].
  apply andb_true_iff in Hok as [Hok Hc2]. apply andb_true_iff in Hok as [Hok
      Hc1].
  destruct (clamp_within _ _ v Hv Hord) as [H1 H2].
  by rewrite Hok, H1, H2.
Qed.

Lemma viewport_ok_finite (e : Extents) (s : State) :
  isFinite (startOffset e) = true -> isFinite (endOffset e) = true ->
  viewport_ok e s = true ->
  exists c z, center s = Fin c /\ zoom s = Fin z /\ z <> 0%Qc.
Proof.
  intros Hs He Hok. unfold viewport_ok in Hok.
  apply andb_true_iff in Hok as [Hok Hc2]. apply andb_true_iff in Hok as [Hok
      Hc1].
  apply andb_true_iff in Hok as [Hz1 Hz2].
  destruct (isFinite_inv _ (le_Fin_bounds _ _ _ Hs He Hc1 Hc2)) as [c Hc].
  destruct (isFinite_inv _ (le_Fin_bounds MIN_ZOOM MAX_ZOOM _ eq_refl eq_refl
      Hz1 Hz2))
    as [z Hz].
  exists c, z. repeat split; [done..|].
  intros ->. rewrite Hz in Hz1. by vm_compute in Hz1.
Qed.

Lemma dispatch_step_in_bounds (this : Component) (e : Extents)
    (a : Action) :
  _getExtents transformTrace (props this) = Normal e ->
  isFinite (startOffset e) = true ->
  isFinite (endOffset e) = true ->
  (startOffset e <=? endOffset e)%js = true ->
  isFinite (viewportWidth (props this)) = true ->
  viewport_ok e (state this) = true ->
  action_finite a = true ->
  exists this',
    dispatch transformTrace toFixed this a = Normal this'
    /\ props this' = props this
    /\ viewport_ok e (state this') = true.
Proof.
  intros He [so Hso]%isFinite_inv [eo Heo]%isFinite_inv Hord [h Hh]%half_finite
    Hok Ha.
  destruct (viewport_ok_finite e (state this)) as (c & z & Hc & Hz & Hz0);
    [by rewrite Hso|by rewrite Heo|done|].
  assert (Hsize : size e = Fin (eo - so)).
  { revert He. unfold _getExtents, extents_of.
    destruct (prop_of measure (_ !! 0%nat)) as [first|]; [|done]. cbn.
    destruct (prop_of measure (_ !! _)) as [fin|]; [|done]. cbn.
    intros [= <-]. cbn in *. by rewrite Hso, Heo. }
  assert (Hcenter : forall v,
             isNaN v = false ->
             exists this',
               (c' ← _clampCenter transformTrace this v;
                mret (setState (set_center c') this)) = Normal this'
               /\ props this' = props this
               /\ viewport_ok e (state this') = true).
  { intros v Hv. unfold _clampCenter. rewrite He. cbn.
    eexists. split; [reflexivity|]. split; [done|].
    by apply viewport_ok_set_center. }
  assert (Hzoom : forall v,
             isNaN v = false ->
             exists this',
               Normal (setState (set_zoom (_clampZoom v)) this) = Normal this'
               /\ props this' = props this
               /\ viewport_ok e (state this') = true).
  { intros v Hv. eexists. split; [reflexivity|]. split; [done|].
    by apply viewport_ok_set_zoom. }
  assert (Hsame : exists this',
             Normal this = Normal this'
             /\ props this' = props this
             /\ viewport_ok e (state this') = true) by eauto.
  destruct a as [v|v| | |i|ev|ev|ev|ev|k]; cbn [dispatch action_finite] in *.
  - apply Hzoom. by destruct v.
  - apply Hcenter. by destruct v.
  - unfold _handleLeft. rewrite He. cbn [mbind completion_bind].
    apply Hcenter. rewrite Hc, Hz, Hsize. unfold ratio.
    by rewrite mul_Fin, div_Fin, sub_Fin.
  - unfold _handleRight. rewrite He. cbn [mbind completion_bind].
    apply Hcenter. rewrite Hc, Hz, Hsize. unfold ratio.
    by rewrite mul_Fin, div_Fin, add_Fin.
  - eexists. split; [reflexivity|]. split; [done|]. exact Hok.
  - eexists. split; [reflexivity|]. split; [done|]. exact Hok.
  - apply isFinite_inv in Ha as [dx Hdx].
    unfold _mouseMove. destruct (_getCanvasMousePos ev) as [mx my].
    destruct (dragging (state this)).
    + unfold _clampCenter. rewrite He. cbn [mbind completion_bind mret
        completion_ret].
      eexists. split; [reflexivity|]. split; [done|].
      cbn [setState state]. unfold viewport_ok.
      cbn [set_dragMoved set_hovered zoom center].
      apply (viewport_ok_set_center e (state this)); [|done..].
      unfold PX_PER_MS. rewrite div_1_r, Hc, Hz, Hdx.
      by rewrite div_Fin, sub_Fin.
    + eexists. split; [reflexivity|]. split; [done|]. exact Hok.
  - eexists. split; [reflexivity|]. split; [done|]. exact Hok.
  - apply andb_true_iff in Ha as [Ha Hdy200].
    apply andb_true_iff in Ha as [Ha [dy Hdy]%isFinite_inv].
    apply andb_true_iff in Ha as [[cx Hcx]%isFinite_inv [rl Hrl]%isFinite_inv].
    apply negb_true_iff in Hdy200. rewrite Hdy in Hdy200.
    change (num_of_Z 200) with (Fin (Q2Qc 200)) in Hdy200.
    apply strict_eq_false_neq in Hdy200.
    assert (Huz : exists k, k <> 0%Qc /\ updatedZoom this ev = Fin (z * k)).
    { unfold updatedZoom, ratio, num_of_Z. rewrite Hz, Hdy.
      rewrite neg_Fin, mul_Fin, add_Fin, mul_Fin. eexists. split;
          [|reflexivity].
      intros Hk. apply Hdy200. apply Qc_is_canon.
      assert (Hk' : (Qcanon.this (Q2Qc (inject_Z 1) + Q2Qc (1 # 200) * - dy)%Qc
                     == 0)%Q) by (by rewrite Hk).
      clear Hk. qc_to_q. unfold inject_Z in *. lra. }
    destruct Huz as (k & Hk & Huz).
    assert (Hoff : exists d, mouseOffsetFromCenter this ev = Fin d).
    { unfold mouseOffsetFromCenter, _getCanvasMousePos. rewrite Hcx, Hrl, Hh.
      eexists. reflexivity. }
    destruct Hoff as [d Hd].
    unfold _handleWheel. fold (updatedZoom this ev). 
    destruct (negb _).
    + unfold _clampCenter. rewrite He. cbn [mbind completion_bind mret
        completion_ret].
      eexists. split; [reflexivity|]. split; [done|].
      cbn [setState state].
      apply (viewport_ok_set_center e); [|done|].
      * unfold updatedCenter, PX_PER_MS. rewrite !div_1_r, Huz, Hd, Hc, Hz.
        rewrite !div_Fin; [done|..]; try done.
        intros H0. apply Qcmult_integral in H0 as []; done.
      * apply viewport_ok_set_zoom; [|done]. by rewrite Huz.
    + exact Hsame.
  - unfold _handleKey. rewrite He. cbn [mbind completion_bind].
    repeat case_match; try exact Hsame.
    + apply Hzoom. by rewrite Hz.
    + apply Hcenter. rewrite Hc, Hz, Hsize. unfold ratio.
      by rewrite mul_Fin, div_Fin, sub_Fin.
    + apply Hzoom. rewrite Hz. change (num_of_Z 2) with (Fin (Q2Qc 2)). by
        rewrite div_Fin.
    + apply Hcenter. rewrite Hc, Hz, Hsize. unfold ratio.
      by rewrite mul_Fin, div_Fin, add_Fin.
Qed.

(** X9.  All the handlers of the component, in any order ([_handleZoom],
    [_handleCenter], [_handleLeft], [_handleRight], [_handleMeasureClick],
    [_mouseDown], [_mouseMove], [_mouseUp], [_handleWheel], [_handleKey]):
    over a trace with finite, ordered extents, from a zoom within
    [MIN_ZOOM] and [MAX_ZOOM] and a center within the extents, any sequence
    of events with finite values, and no wheel [deltaY] of exactly 200,
    runs without an error, keeps the props, and ends with the zoom and the
    center still within these bounds. *)
Theorem dispatch_all_keeps_viewport_in_bounds (this : Component)
    (e : Extents) (actions : list Action) :
  _getExtents transformTrace (props this) = Normal e ->
  isFinite (startOffset e) = true ->
  isFinite (endOffset e) = true ->
  (startOffset e <=? endOffset e)%js = true ->
  isFinite (viewportWidth (props this)) = true ->
  viewport_ok e (state this) = true ->
  forallb action_finite actions = true ->
  exists this',
    dispatch_all transformTrace toFixed this actions = Normal this'
    /\ props this' = props this
    /\ viewport_ok e (state this') = true.
Proof.
  intros He Hso Heo Hord Hw Hok Hall. unfold dispatch_all.
  revert this He Hw Hok.
  induction actions as [|a actions IH]; intros this He Hw Hok.
  { by exists this. }
  cbn [forallb] in Hall. apply andb_true_iff in Hall as [Ha Hall].
  destruct (dispatch_step_in_bounds this e a)
    as (this1 & Hstep & Hprops & Hok1); [done..|].
  cbn [foldl mbind completion_bind]. rewrite Hstep.
  destruct (IH Hall this1) as (this' & Hrun & Hprops' & Hok');
    [by rewrite Hprops..|done|].
  exists this'. split; [done|]. split; [congruence|done].
Qed.

(** X10.  The handlers on a trace whose layout is empty: the handlers that
    read the extents ([_handleCenter], [_handleLeft], [_handleRight],
    [_handleKey] on any key, [_mouseMove] while dragging, [_handleWheel]
    when the clamped zoom differs from the current one) throw a
    [TypeError]; every other event is handled without an error and leaves
    the center as it was. *)
Theorem dispatch_on_empty_trace (this : Component) (a : Action) :
  transformTrace (trace (props this)) = [] ->
  if needs_extents this a
  then dispatch transformTrace toFixed this a = Throw TypeError
  else exists this',
         dispatch transformTrace toFixed this a = Normal this'
         /\ center (state this') = center (state this).
Proof.
  intros Hempty.
  assert (He : _getExtents transformTrace (props this) = Throw TypeError)
    by (unfold _getExtents; by rewrite Hempty).
  destruct a as [v|v| | |i|ev|ev|ev|ev|k]; cbn [needs_extents dispatch];
    try (eexists; split; [reflexivity|done]).
  - unfold _handleCenter, _clampCenter. by rewrite He.
  - unfold _handleLeft. by rewrite He.
  - unfold _handleRight. by rewrite He.
  - unfold _mouseMove. destruct (_getCanvasMousePos ev) as [mx my].
    destruct (dragging (state this)).
    + unfold _clampCenter. by rewrite He.
    + eexists; split; [reflexivity|done].
  - unfold _handleWheel. destruct (negb _).
    + unfold _clampCenter. by rewrite He.
    + eexists; split; [reflexivity|done].
  - unfold _handleKey. by rewrite He.
Qed.
End Part000Navigation.

(** ** The DOM renderer and the persisted view *)

Section Part000Document.

Import Part000.

Variable transformTrace : list Measure -> list RenderableMeasure.

Lemma render_measure_eq (this : Component) (d : nat)
    (els : list (option DomBar)) (i : nat) (m : RenderableMeasure) :
  render_measure this (d, els) (i, m)
  = if drawable this m
    then if (DRAW_LIMIT <? S d)%nat then (S d, els ++ [None])
         else (S d,
               els ++ [Some {| key := i; bar := _getLayout this m;
                               shown := m |}])
    else (d, els ++ [None]).
Proof.
  unfold render_measure, drawable.
  destruct (inView (_getLayout this m)); [|done].
  by destruct (width (_getLayout this m) <? _)%js.
Qed.

Lemma render_measure_fold (this : Component)
    (l : list (nat * RenderableMeasure)) (d0 : nat)
    (els0 : list (option DomBar)) :
  exists new,
    foldl (render_measure this) (d0, els0) l
    = ((d0 + length (filter (fun im => drawable this im.2) l))%nat,
       els0 ++ new)
    /\ length new = length l
    /\ (length (omap id new)
        = Nat.min (d0 + length (filter (fun im => drawable this im.2) l))
            DRAW_LIMIT
          - Nat.min d0 DRAW_LIMIT)%nat
    /\ Forall (fun ob =>
                 match ob with
                 | Some b =>
                     (key b, shown b) ∈ l
                     /\ bar b = _getLayout this (shown b)
                     /\ drawable this (shown b) = true
                 | None => True
                 end) new.
Proof.
  revert d0 els0. induction l as [|[i m] l IH]; intros d0 els0.
  { exists []. cbn. rewrite app_nil_r, Nat.add_0_r. repeat split; [lia|done]. }
  assert (Hweaken : forall new,
    Forall (fun ob => match ob with
                      | Some b => (key b, shown b) ∈ l
                                  /\ bar b = _getLayout this (shown b)
                                  /\ drawable this (shown b) = true
                      | None => True end) new ->
    Forall (fun ob => match ob with
                      | Some b => (key b, shown b) ∈ (i, m) :: l
                                  /\ bar b = _getLayout this (shown b)
                                  /\ drawable this (shown b) = true
                      | None => True end) new).
  { intros new Hall. eapply Forall_impl; [exact Hall|]. intros [b|]; [|done].
    intros (Hin & ? & ?). split; [by right|done]. }
  cbn [foldl]. rewrite render_measure_eq, filter_cons. cbn [snd].
  destruct (drawable this m) eqn:Hd.
  2: { destruct (IH d0 (els0 ++ [None])) as (new & Hfold & Hlen & Hcount &
      Hall).
       exists (None :: new). rewrite Hfold, <- app_assoc.
       rewrite decide_False by (by intros []); cbn [app].
       split; [done|]. split; [cbn; lia|]. split; [done|].
       constructor; [done|]. by apply Hweaken. }
  rewrite decide_True by exact I. cbn [length].
  destruct (DRAW_LIMIT <? S d0)%nat eqn:Hlimit.
  - destruct (IH (S d0) (els0 ++ [None])) as (new & Hfold & Hlen & Hcount &
      Hall).
    exists (None :: new). rewrite Hfold, <- app_assoc.
    apply Nat.ltb_lt in Hlimit.
    split; [f_equal; lia|]. split; [cbn; lia|].
    split; [cbn [omap list_omap id]; rewrite Hcount; lia|].
    constructor; [done|]. by apply Hweaken.
  - destruct (IH (S d0) (els0 ++ [Some {| key := i; bar := _getLayout this m;
      shown := m |}]))
      as (new & Hfold & Hlen & Hcount & Hall).
    eexists (Some _ :: new). rewrite Hfold, <- app_assoc.
    apply Nat.ltb_ge in Hlimit.
    split; [f_equal; lia|]. split; [cbn; lia|].
    split; [cbn [omap list_omap id length]; rewrite Hcount; lia|].
    constructor; [|by apply Hweaken].
    cbn. split; [by left|]. done.
Qed.

Lemma drawable_imap_length (this : Component) (f : nat -> nat)
    (l : list RenderableMeasure) :
  length (filter (fun im : nat * RenderableMeasure => drawable this im.2)
            (imap (fun index m => (f index, m)) l))
  = length (filter (drawable this) l).
Proof.
  revert f. induction l as [|m l IH]; intros f; [done|].
  rewrite imap_cons, !filter_cons. cbn [snd].
  specialize (IH (f ∘ S)).
  destruct (drawable this m).
  - rewrite !decide_True by exact I. cbn [length]. f_equal. apply IH.
  - rewrite !decide_False by (by intros []). apply IH.
Qed.

(** X11.  [render] with the DOM renderer: there is one slot per measure of
    the laid-out trace; the counter [drawn] ends as the number of measures
    that are in view and at least [DRAW_MIN_PERCENT] of the viewport wide;
    the number of bars actually produced is the lesser of [drawn] and
    [DRAW_LIMIT]; and each bar belongs to such a measure, and carries its
    index as key and the layout [_getLayout] gives it. *)
Theorem dom_render_draw_limit (this : Component) (contentWidth : num)
    (bars : list (option DomBar)) (drawn : nat) :
  render transformTrace this = Normal (DomView contentWidth bars drawn) ->
  length bars = length (transformTrace (trace (props this)))
  /\ drawn
     = length (filter (drawable this) (transformTrace (trace (props this))))
  /\ length (omap id bars) = Nat.min drawn DRAW_LIMIT
  /\ Forall (fun ob =>
               match ob with
               | Some b =>
                   transformTrace (trace (props this)) !! key b
                   = Some (shown b)
                   /\ bar b = _getLayout this (shown b)
                   /\ drawable this (shown b) = true
               | None => True
               end) bars.
Proof.
  unfold render.
  destruct (transformTrace (trace (props this)) !! 0%nat); [|done].
  destruct (_getExtents _ _) as [e|]; [|done]. cbn [mbind completion_bind].
  destruct (renderer (props this)); [done|].
  destruct (_getContentWidth _ _) as [cw|]; [|done]. cbn [mbind
      completion_bind].
  destruct (render_measure_fold this
              (imap (fun index m => (index, m))
                 (transformTrace (trace (props this)))) 0 [])
    as (new & Hfold & Hlen & Hcount & Hall).
  rewrite Hfold. cbn [app]. intros [= <- <- <-].
  rewrite length_imap in Hlen.
  pose proof (drawable_imap_length this id
                (transformTrace (trace (props this)))) as Hfilter.
  cbn [id] in Hfilter.
  rewrite Hfilter in *. cbn [Nat.add] in *.
  split; [done|]. split; [done|]. split; [rewrite Hcount; cbn; lia|].
  eapply Forall_impl; [exact Hall|]. intros [b|]; [|done].
  intros (Hin & ? & ?). split; [|done].
  apply elem_of_lookup_imap in Hin as (i & m & Heq & Hlook).
  by injection Heq as -> ->.
Qed.

(** X12.  [componentDidMount]'s [onbeforeunload], [storeValue], [loadValue]
    and the constructor: after the page is unloaded and the component is
    constructed again over the same props, the zoom and the center are the
    ones it had, except that a [NaN] value is replaced by the default; the
    drag flag, the hovered measure and the selection start afresh. *)
Theorem Part000_reload_restores_view (this : Component) (e : Extents)
    (localStorage : Storage) :
  _getExtents transformTrace (props this) = Normal e ->
  exists this',
    constructor transformTrace (onbeforeunload this localStorage)
      (props this) = Normal this'
    /\ props this' = props this
    /\ zoom (state this')
       = (if isNaN (zoom (state this)) then num_of_Z 1
          else zoom (state this))
    /\ center (state this')
       = (if isNaN (center (state this))
          then (startOffset e
                + viewportWidth (props this) / PX_PER_MS / num_of_Z 2)%js
          else center (state this))
    /\ dragging (state this') = false
    /\ hovered (state this') = None
    /\ selection (state this') = None.
Proof.
  intros He. unfold constructor. rewrite He. cbn [mbind completion_bind].
  eexists. split; [reflexivity|]. cbn [props state zoom center dragging
      hovered selection].
  unfold loadValue, onbeforeunload, storeValue, Storage in *.
  rewrite lookup_insert_eq, lookup_insert_ne, lookup_insert_eq by done.
  repeat split.
  - by destruct (isNaN (zoom (state this))).
  - by destruct (isNaN (center (state this))).
Qed.
End Part000Document.

(** ** [Trace.js]: persisted view, clamps and groups *)

Section TraceMore.

Import Trace.

Variable transformTrace : list Measure -> list RenderableMeasure.
Variable PX_PER_MS : num.
Variable MAX_ZOOM : num.

(** X13.  [Trace.js], [storeValue], [loadValue] and the constructor: without
    [persistView] unloading the page writes nothing to the storage, and the
    component constructed again has the default zoom 1 and the default
    center, whatever the storage holds; with [persistView] it has the zoom
    and the center it had, a [NaN] value being replaced by the default. *)
Theorem Trace_reload_restores_view (this : Component) (e : Extents)
    (localStorage : Storage) :
  _getExtents transformTrace (props this) = Normal e ->
  (if persistView (props this) then True
   else onbeforeunload this localStorage = localStorage)
  /\ exists this',
       constructor transformTrace PX_PER_MS
         (onbeforeunload this localStorage) (props this) = Normal this'
       /\ props this' = props this
       /\ zoom (state this')
          = (if persistView (props this) && negb (isNaN (zoom (state this)))
             then zoom (state this)
             else num_of_Z 1)
       /\ center (state this')
          = (if persistView (props this)
                && negb (isNaN (center (state this)))
             then center (state this)
             else (startOffset e
                   + viewportWidth (props this) / PX_PER_MS
                     / num_of_Z 2)%js).
Proof.
  intros He. split.
  { unfold onbeforeunload, storeValue. by destruct (persistView (props this)). }
  unfold constructor. rewrite He. cbn [mbind completion_bind].
  eexists. split; [reflexivity|]. cbn [props state zoom center].
  unfold loadValue, onbeforeunload, storeValue, USE_PERSISTENT_STATE, Storage
      in *.
  destruct (persistView (props this)); cbn [orb andb].
  - rewrite lookup_insert_eq, lookup_insert_ne, lookup_insert_eq by done.
    repeat split.
  - repeat split; by repeat case_match.
Qed.

(** X14.  [Trace.js], [_getMinZoom] and [_clampZoom]: when the minimal zoom
    [viewportWidth / size], [MAX_ZOOM] and the requested zoom are numbers,
    the clamped zoom is at least the minimal zoom; it is at most [MAX_ZOOM]
    unless the minimal zoom already exceeds [MAX_ZOOM], in which case it is
    the minimal zoom: the lower bound wins. *)
Theorem Trace_clampZoom_bounds (this : Component) (e : Extents) (z : num) :
  _getExtents transformTrace (props this) = Normal e ->
  isNaN (viewportWidth (props this) / size e)%js = false ->
  isNaN MAX_ZOOM = false ->
  isNaN z = false ->
  exists r,
    _clampZoom transformTrace MAX_ZOOM this z = Normal r
    /\ (viewportWidth (props this) / size e <=? r)%js = true
    /\ if (MAX_ZOOM <=? viewportWidth (props this) / size e)%js
       then r = (viewportWidth (props this) / size e)%js
       else (r <=? MAX_ZOOM)%js = true.
Proof.
  intros He Hmin Hmax Hz. unfold _clampZoom, _getMinZoom. rewrite He.
  cbn [mbind completion_bind mret completion_ret].
  eexists. split; [reflexivity|].
  revert Hmin Hmax Hz. generalize (viewportWidth (props this) / size e)%js.
  intros m. unfold Math_max, Math_min. destruct m, MAX_ZOOM, z; num_crush.
Qed.

(** X15.  [Trace.js], [_handleStateChange]: over ordered extents with the
    minimal zoom at most [MAX_ZOOM], a change whose zoom and center, when
    given, are numbers is applied without an error; a given zoom ends
    within the minimal zoom and [MAX_ZOOM], a given center within the
    extents, a field that is not given keeps its value, and the other
    fields of the change are copied as they are. *)
Theorem Trace_handleStateChange_within_bounds (this : Component)
    (e : Extents) (changes : Changes) :
  _getExtents transformTrace (props this) = Normal e ->
  (startOffset e <=? endOffset e)%js = true ->
  (viewportWidth (props this) / size e <=? MAX_ZOOM)%js = true ->
  from_option isNaN false (c_zoom changes) = false ->
  from_option isNaN false (c_center changes) = false ->
  exists this',
    _handleStateChange transformTrace MAX_ZOOM this changes = Normal this'
    /\ props this' = props this
    /\ match c_zoom changes with
       | Some _ =>
           (viewportWidth (props this) / size e <=? zoom (state this'))%js
           && (zoom (state this') <=? MAX_ZOOM)%js = true
       | None => zoom (state this') = zoom (state this)
       end
    /\ match c_center changes with
       | Some _ =>
           (startOffset e <=? center (state this'))%js
           && (center (state this') <=? endOffset e)%js = true
       | None => center (state this') = center (state this)
       end
    /\ dragging (state this')
       = default (dragging (state this)) (c_dragging changes)
    /\ dragMoved (state this')
       = default (dragMoved (state this)) (c_dragMoved changes)
    /\ hovered (state this')
       = default (hovered (state this)) (c_hovered changes)
    /\ selection (state this')
       = default (selection (state this)) (c_selection changes)
    /\ verticalOffset (state this')
       = default (verticalOffset (state this)) (c_verticalOffset changes).
Proof.
  intros He Hord Hzord Hz Hc.
  unfold _handleStateChange, _clampZoom, _getMinZoom, _clampCenter.
  rewrite He.
  destruct (c_zoom changes) as [z|], (c_center changes) as [c|];
    cbn [mbind completion_bind mret completion_ret from_option] in *;
    (eexists; split; [reflexivity|]; split; [done|]);
    cbn [setState state zoom center dragging dragMoved hovered selection
           verticalOffset];
    repeat split;
    try (destruct (clamp_within _ _ z Hz Hzord) as [-> ->]; done);
    try (destruct (clamp_within _ _ c Hc Hord) as [-> ->]; done).
Qed.

(** X16.  [Trace.js] on a trace whose layout is empty: [_handleKey] throws a
    [TypeError] on every key, also on keys it does not handle;
    [_handleStateChange] throws when the change gives a zoom or a center,
    and otherwise succeeds and keeps the zoom and the center. *)
Theorem Trace_handlers_on_empty_trace (this : Component)
    (changes : Changes) (key : string) :
  transformTrace (trace (props this)) = [] ->
  _handleKey transformTrace MAX_ZOOM this key = Throw TypeError
  /\ match c_zoom changes, c_center changes with
     | None, None =>
         exists this',
           _handleStateChange transformTrace MAX_ZOOM this changes
           = Normal this'
           /\ zoom (state this') = zoom (state this)
           /\ center (state this') = center (state this)
     | _, _ =>
         _handleStateChange transformTrace MAX_ZOOM this changes
         = Throw TypeError
     end.
Proof.
  intros Hempty.
  assert (He : _getExtents transformTrace (props this) = Throw TypeError)
    by (unfold _getExtents; by rewrite Hempty).
  split.
  { unfold _handleKey. by rewrite He. }
  unfold _handleStateChange, _clampZoom, _getMinZoom, _clampCenter.
  rewrite He.
  destruct (c_zoom changes), (c_center changes); try done.
  eexists. split; [reflexivity|]. done.
Qed.

Lemma map_get_set_eq {A : Type} (k : option string) (v : A)
    (m : list (option string * A)) :
  map_get k (map_set k v m) = Some v.
Proof.
  induction m as [|[k' v'] m IH]; cbn.
  - by rewrite decide_True.
  - destruct (decide (k' = k)) as [->|Hne]; cbn.
    + by rewrite decide_True.
    + by rewrite decide_False.
Qed.

Lemma map_get_set_ne {A : Type} (k k' : option string) (v : A)
    (m : list (option string * A)) :
  k' <> k -> map_get k' (map_set k v m) = map_get k' m.
Proof.
  intros Hne. induction m as [|[k0 v0] m IH]; cbn.
  - by rewrite decide_False.
  - destruct (decide (k0 = k)) as [->|Hne0]; cbn.
    + by rewrite !decide_False.
    + by rewrite IH.
Qed.

Lemma map_set_keys {A : Type} (k : option string) (v : A)
    (m : list (option string * A)) :
  m.*1 ≡ₚ (map_set k v m).*1 /\ k ∈ m.*1
  \/ (map_set k v m).*1 = m.*1 ++ [k] /\ k ∉ m.*1.
Proof.
  induction m as [|[k0 v0] m IH]; cbn.
  - right. split; [done|]. apply not_elem_of_nil.
  - destruct (decide (k0 = k)) as [->|Hne0]; cbn.
    + left. split; [done|]. by left.
    + destruct IH as [[Hp Hin]|[Heq Hnin]].
      * left. split; [by rewrite Hp|by right].
      * right. split; [by rewrite Heq|]. rewrite not_elem_of_cons. done.
Qed.

Lemma group_item_invariant (acc : list (option string * list Measure))
    (seen : list Measure) (item : Measure) :
  NoDup acc.*1 ->
  (forall g, map_get g acc
             = match of_group g seen with [] => None | l => Some l end) ->
  NoDup (group_item acc item).*1
  /\ forall g, map_get g (group_item acc item)
               = match of_group g (seen ++ [item]) with
                 | [] => None
                 | l => Some l
                 end.
Proof.
  intros Hnd Hget. unfold group_item. split.
  - destruct (map_set_keys (group item)
                (default [] (map_get (group item) acc) ++ [item]) acc)
      as [[Hp _]|[-> Hnin]].
    + by rewrite <- Hp.
    + apply NoDup_app. split; [done|]. split; [|apply NoDup_singleton].
      intros k Hk ->%list_elem_of_singleton. done.
  - intros g. unfold of_group. rewrite filter_app, filter_cons, filter_nil.
    destruct (decide (group item = g)) as [<-|Hne].
    + rewrite map_get_set_eq, Hget. unfold of_group.
      by destruct (filter _ seen).
    + rewrite map_get_set_ne by done. rewrite Hget, app_nil_r. done.
Qed.

Lemma foldl_group_item_invariant (trace : list Measure)
    (acc : list (option string * list Measure)) (seen : list Measure) :
  NoDup acc.*1 ->
  (forall g, map_get g acc
             = match of_group g seen with [] => None | l => Some l end) ->
  NoDup (foldl group_item acc trace).*1
  /\ forall g, map_get g (foldl group_item acc trace)
               = match of_group g (seen ++ trace) with
                 | [] => None
                 | l => Some l
                 end.
Proof.
  revert acc seen. induction trace as [|item trace IH]; intros acc seen Hnd
      Hget.
  { by rewrite app_nil_r. }
  cbn [foldl].
  destruct (group_item_invariant acc seen item Hnd Hget) as [Hnd' Hget'].
  rewrite (assoc_L _ seen [item] trace : seen ++ item :: trace = (seen ++
      [item]) ++ trace) || rewrite cons_middle, app_assoc.
  by apply IH.
Qed.

Lemma map_get_fmap {A B : Type} (f : A -> B) (k : option string)
    (m : list (option string * A)) :
  map_get k ((fun entry => (entry.1, f entry.2)) <$> m) = f <$> map_get k m.
Proof.
  induction m as [|[k' v] m IH]; cbn; [done|].
  by destruct (decide (k' = k)).
Qed.

(** X17.  [Trace.js], [_transformTraceGroups]: the result has one entry per
    group that occurs in the trace, no group twice, and the entry of a
    group is the layout of exactly the measures of that group, in the
    order of the trace; a group that does not occur has no entry. *)
Theorem transformTraceGroups_partition (trace : list Measure)
    (g : option string) :
  NoDup (_transformTraceGroups transformTrace trace).*1
  /\ map_get g (_transformTraceGroups transformTrace trace)
     = match of_group g trace with
       | [] => None
       | l => Some (transformTrace l)
       end.
Proof.
  unfold _transformTraceGroups.
  destruct (foldl_group_item_invariant trace [] [])
    as [Hnd Hget]; [constructor|done|].
  split.
  - rewrite <- list_fmap_compose.
    erewrite list_fmap_ext; [exact Hnd|]. done.
  - rewrite map_get_fmap, Hget. cbn [app]. by destruct (of_group g trace).
Qed.
End TraceMore.

(** ** Label truncation *)

Section TextFacts.

Import Text.

Context {char : Type}.
Variable ellipsis : char.
Variable measureText : list char -> num.

Lemma slice_prefix (text : list char) (n : nat) :
  (n <= length text)%nat ->
  slice text 0 (Some (Z.of_nat n)) = take n text.
Proof.
  intros Hn. unfold slice, slice_index.
  rewrite (proj2 (Z.ltb_ge 0 0)) by lia.
  rewrite (proj2 (Z.ltb_ge (Z.of_nat n) 0)) by lia.
  rewrite Z.min_l, Z.min_l by lia. cbn [Z.to_nat drop].
  by rewrite Z.sub_0_r, Nat2Z.id.
Qed.

Lemma slice_suffix (text : list char) (n : nat) :
  (n <= length text)%nat ->
  slice text (Z.of_nat n) None = drop n text.
Proof.
  intros Hn. unfold slice, slice_index.
  rewrite (proj2 (Z.ltb_ge (Z.of_nat n) 0)) by lia.
  rewrite Z.min_l by lia. rewrite Nat2Z.id.
  apply take_ge. rewrite length_drop. lia.
Qed.

(** X18.  [truncateText]: for [n] below the length of the text, the result is
    the first [n] characters, the ellipsis, and the last [n + 1]
    characters of the text; it is [2 * n + 2] characters long, which is
    longer than the text itself once [n] reaches half its length. *)
Theorem truncateText_keeps_both_ends (text : list char) (n : nat) :
  (n < length text)%nat ->
  truncateText ellipsis text (Z.of_nat n)
  = take n text ++ [ellipsis] ++ drop (length text - 1 - n) text
  /\ length (truncateText ellipsis text (Z.of_nat n)) = (2 * n + 2)%nat.
Proof.
  intros Hn. unfold truncateText.
  rewrite slice_prefix by lia.
  replace (Z.of_nat (length text) - 1 - Z.of_nat n)%Z
    with (Z.of_nat (length text - 1 - n)) by lia.
  rewrite slice_suffix by lia. split; [done|].
  rewrite !length_app, length_take, length_drop. cbn [length]. lia.
Qed.

(** X19.  [truncateText] at [-1], the value [_fitText] passes when not even
    the ellipsis alone fits: the result is the whole text but its last
    character, followed by the ellipsis. *)
Lemma truncateText_minus_one (text : list char) :
  truncateText ellipsis text (-1)
  = take (length text - 1) text ++ [ellipsis].
Proof.
  destruct text as [|c text]; [done|].
  unfold truncateText.
  replace (Z.of_nat (length (c :: text)) - 1 - -1)%Z
    with (Z.of_nat (length (c :: text))) by lia.
  rewrite slice_suffix by lia. rewrite drop_all, app_nil_r. f_equal.
  unfold slice, slice_index. cbn [Z.ltb Z.compare Z.min Z.to_nat drop].
  f_equal. cbn [length]. lia.
Qed.

Lemma fit_loop_bounds (label : list char) (textWidth : num) (l r : Z) :
  (l <= r + 1)%Z ->
  (l - 1 <= fit_loop ellipsis measureText label textWidth l r <= r)%Z.
Proof.
  funelim (fit_loop ellipsis measureText label textWidth l r);
    intros Hlr.
  - assert (0 <= (r - l) / 2 < r - l)%Z
      by (split; [apply Z.div_pos | apply Z.div_lt]; lia).
    destruct (textWidth <? _)%js.
    + specialize (H ltac:(lia)). lia.
    + specialize (H0 ltac:(lia)). lia.
  - lia.
Qed.

(** X20.  [_fitText]: the binary search ends on every label.  A label that
    is not wider than the available width is returned as it is; otherwise
    the result is [truncateText] of the label at some [r] from [-1] to the
    length of the label minus 1. *)
Theorem fitText_result (label : list char) (textWidth : num) :
  if (textWidth <? measureText label)%js
  then exists r : Z,
         (-1 <= r <= Z.of_nat (length label) - 1)%Z
         /\ _fitText ellipsis measureText label textWidth
            = truncateText ellipsis label r
  else _fitText ellipsis measureText label textWidth = label.
Proof.
  unfold _fitText. destruct (textWidth <? measureText label)%js; [|done].
  eexists. split; [|reflexivity].
  pose proof (fit_loop_bounds label textWidth 0
                (Z.of_nat (length label) - 1)) as H.
  lia.
Qed.

Context {Key : Type} `{EqDecision Key}.

(** X21.  [_fitTextCached]: when every entry of the cache holds the text
    [_fitText] gives for its measure's label at the width stored with it,
    the cached function returns what [_fitText] returns, and the cache it
    leaves has that property again. *)
Theorem fitTextCached_coherent (label_of : Key -> list char)
    (cache : @FitTextMap char Key) (measure : Key) (textWidth : num) :
  coherent ellipsis measureText label_of cache ->
  (_fitTextCached ellipsis measureText cache measure (label_of measure)
     textWidth).1
  = _fitText ellipsis measureText (label_of measure) textWidth
  /\ coherent ellipsis measureText label_of
       (_fitTextCached ellipsis measureText cache measure
          (label_of measure) textWidth).2.
Proof.
  intros Hco. unfold _fitTextCached.
  assert (Hmiss : coherent ellipsis measureText label_of
            (fun k => if decide (k = measure)
                      then Some (textWidth,
                                 _fitText ellipsis measureText
                                   (label_of measure) textWidth)
                      else cache k)).
  { intros k w t. destruct (decide (k = measure)) as [->|]; [|by apply Hco].
    by intros [= <- <-]. }
  destruct (cache measure) as [[w t]|] eqn:Hhit; [|done].
  destruct (w === textWidth)%js eqn:Heq; [|done].
  apply strict_eq_true in Heq as ->. split; [|done].
  by apply Hco.
Qed.
End TextFacts.

(** ** The further properties on concrete components *)

Module MoreConcrete.

Import Fixtures Samples.

Local Abbreviation layout := calculateTraceLayout.transformTrace.

Lemma one_lane_per_point_witness :
  stackIndex bar_B = stackIndex bar_C.
Proof.
  apply (one_lane_per_point nested_canvas bar_B bar_C
           (num_of_Z 300) (num_of_Z 700) (num_of_Z 20));
    vm_compute; reflexivity.
Defined.


Lemma hit_test_after_render_witness :
  match
    Part000._getIntersectingMeasure
      (Part000._renderCanvas layout nested_canvas) (pointer_at 300 20 0)
  with
  | Some m =>
      m ∈ layout (Part000.trace (Part000.props nested_canvas))
      /\ inView (Part000._getLayout nested_canvas m) = true
      /\ Part000.contains (Part000._getLayout nested_canvas m)
           (Part000._getCanvasMousePos (pointer_at 300 20 0)).1
           (Part000._getCanvasMousePos (pointer_at 300 20 0)).2 = true
  | None =>
      forall m,
        m ∈ layout (Part000.trace (Part000.props nested_canvas)) ->
        inView (Part000._getLayout nested_canvas m) = true ->
        Part000.contains (Part000._getLayout nested_canvas m)
          (Part000._getCanvasMousePos (pointer_at 300 20 0)).1
          (Part000._getCanvasMousePos (pointer_at 300 20 0)).2 = false
  end.
Proof.
  apply (hit_test_after_render layout nested_canvas (pointer_at 300 20 0)).
  reflexivity.
Defined.

Lemma hit_test_above_canvas_witness :
  Part000._getIntersectingMeasure
    (Part000._renderCanvas layout nested_canvas) (pointer_at 300 (-5) 0)
  = None.
Proof.
  apply (hit_test_above_canvas layout nested_canvas (pointer_at 300 (-5) 0));
    vm_compute; reflexivity.
Defined.

Lemma drag_moves_bars_toward_pointer_witness :
  exists this',
    Part000._mouseMove layout toFixed_unused
      (Part000._mouseDown wide_canvas (moved_by 0)) (moved_by 10)
    = Normal this'
    /\ Part000.dragMoved (Part000.state this') = true
    /\ Part000.props this'
       = Part000.props (Part000._mouseDown wide_canvas (moved_by 0))
    /\ Part000.zoom (Part000.state this')
       = Part000.zoom
           (Part000.state (Part000._mouseDown wide_canvas (moved_by 0)))
    /\ forall m,
         isFinite (startTime (measure m)) = true ->
         width (Part000._getLayout this' m)
         = width (Part000._getLayout
                    (Part000._mouseDown wide_canvas (moved_by 0)) m)
         /\ y (Part000._getLayout this' m)
            = y (Part000._getLayout
                   (Part000._mouseDown wide_canvas (moved_by 0)) m)
         /\ (x (Part000._getLayout
                  (Part000._mouseDown wide_canvas (moved_by 0)) m)
             <=? x (Part000._getLayout this' m))%js = true.
Proof.
  apply (drag_moves_bars_toward_pointer layout toFixed_unused
           (Part000._mouseDown wide_canvas (moved_by 0)) (moved_by 10)
           wide_extents);
    vm_compute; reflexivity.
Defined.

Lemma key_pan_moves_bars_one_way_witness :
  exists this',
    Part000._handleKey layout wide_canvas "a" = Normal this'
    /\ Part000.props this' = Part000.props wide_canvas
    /\ Part000.zoom (Part000.state this')
       = Part000.zoom (Part000.state wide_canvas)
    /\ forall m,
         isFinite (startTime (measure m)) = true ->
         width (Part000._getLayout this' m)
         = width (Part000._getLayout wide_canvas m)
         /\ y (Part000._getLayout this' m)
            = y (Part000._getLayout wide_canvas m)
         /\ (x (Part000._getLayout wide_canvas m)
             <=? x (Part000._getLayout this' m))%js = true.
Proof.
  apply (key_pan_moves_bars_one_way layout wide_canvas wide_extents "a");
    [by left | vm_compute; reflexivity ..].
Defined.

Lemma key_zoom_round_trip_witness :
  (this' ← Part000._handleKey layout wide_canvas "w";
   Part000._handleKey layout this' "s") = Normal wide_canvas
  /\ (this' ← Part000._handleKey layout wide_canvas "s";
      Part000._handleKey layout this' "w") = Normal wide_canvas.
Proof.
  eapply (key_zoom_round_trip layout wide_canvas);
    [reflexivity | vm_compute; reflexivity ..].
Defined.

Lemma wheel_with_zero_factor_witness :
  exists this',
    Part000._handleWheel layout wide_canvas (pointer_at 500 8 200)
    = Normal this'
    /\ Part000.zoom (Part000.state this') = Part000.MIN_ZOOM
    /\ Part000.center (Part000.state this') = NaN.
Proof.
  eapply (wheel_with_zero_factor layout wide_canvas (pointer_at 500 8 200));
    [reflexivity | vm_compute; reflexivity ..].
Defined.

Lemma dispatch_all_keeps_viewport_in_bounds_witness :
  exists this',
    Part000.dispatch_all layout toFixed_unused wide_canvas
      [Part000.Wheel (pointer_at 300 8 (-100)); Part000.KeyPress "w";
       Part000.MouseDown (moved_by 0); Part000.MouseMove (moved_by 700);
       Part000.MouseUp (moved_by 0); Part000.ChangeZoom (num_of_Z 1000);
       Part000.KeyPress "d"; Part000.ClickLeft]
    = Normal this'
    /\ Part000.props this' = Part000.props wide_canvas
    /\ Part000.viewport_ok
         wide_extents
         (Part000.state this') = true.
Proof.
  eapply (dispatch_all_keeps_viewport_in_bounds layout toFixed_unused
            wide_canvas);
    [reflexivity | vm_compute; reflexivity ..].
Defined.

Lemma dispatch_on_empty_trace_witness :
  Part000.dispatch layout toFixed_unused
    (canvas_at [] (num_of_Z 0) (num_of_Z 1)) (Part000.KeyPress "x")
  = Throw TypeError.
Proof.
  apply (dispatch_on_empty_trace layout toFixed_unused
           (canvas_at [] (num_of_Z 0) (num_of_Z 1)) (Part000.KeyPress "x")).
  reflexivity.
Defined.

Lemma dom_render_draw_limit_witness :
  length dom_bars
  = length (layout (Part000.trace (Part000.props dom_component)))
  /\ dom_drawn
     = length (filter (Part000.drawable dom_component)
                 (layout (Part000.trace (Part000.props dom_component))))
  /\ length (omap id dom_bars) = Nat.min dom_drawn Part000.DRAW_LIMIT
  /\ Forall (fun ob =>
               match ob with
               | Some b =>
                   layout (Part000.trace (Part000.props dom_component))
                     !! Part000.key b
                   = Some (Part000.shown b)
                   /\ Part000.bar b
                      = Part000._getLayout dom_component (Part000.shown b)
                   /\ Part000.drawable dom_component (Part000.shown b)
                      = true
               | None => True
               end) dom_bars.
Proof.
  apply (dom_render_draw_limit layout dom_component dom_contentWidth
           dom_bars dom_drawn).
  vm_compute. reflexivity.
Defined.

Lemma Part000_reload_restores_view_witness :
  exists this',
    Part000.constructor layout
      (Part000.onbeforeunload wide_canvas no_storage)
      (Part000.props wide_canvas) = Normal this'
    /\ Part000.props this' = Part000.props wide_canvas
    /\ Part000.zoom (Part000.state this') = num_of_Z 1
    /\ Part000.center (Part000.state this') = num_of_Z 50
    /\ Part000.dragging (Part000.state this') = false
    /\ Part000.hovered (Part000.state this') = None
    /\ Part000.selection (Part000.state this') = None.
Proof.
  eapply (Part000_reload_restores_view layout wide_canvas).
  reflexivity.
Defined.

Lemma Trace_reload_restores_view_witness :
  True
  /\ exists this',
       Trace.constructor layout (num_of_Z 1)
         (Trace.onbeforeunload (persisted true) no_storage)
         (Trace.props (persisted true)) = Normal this'
       /\ Trace.props this' = Trace.props (persisted true)
       /\ Trace.zoom (Trace.state this') = num_of_Z 20
       /\ Trace.center (Trace.state this') = num_of_Z 50.
Proof.
  eapply (Trace_reload_restores_view layout (num_of_Z 1) (persisted true)).
  reflexivity.
Defined.

Lemma Trace_clampZoom_bounds_witness :
  exists r,
    Trace._clampZoom layout (num_of_Z 100) (persisted true) (num_of_Z 1)
    = Normal r
    /\ (num_of_Z 1000 / size wide_extents <=? r)%js
       = true
    /\ (r <=? num_of_Z 100)%js = true.
Proof.
  eapply (Trace_clampZoom_bounds layout (num_of_Z 100) (persisted true));
    [reflexivity | vm_compute; reflexivity ..].
Defined.

Lemma Trace_handlers_on_empty_trace_witness :
  Trace._handleKey layout (num_of_Z 100)
    (trace_component (trace_props [] false 1000) (num_of_Z 0) (num_of_Z 1))
    "w" = Throw TypeError
  /\ Trace._handleStateChange layout (num_of_Z 100)
       (trace_component (trace_props [] false 1000) (num_of_Z 0)
          (num_of_Z 1))
       (zoom_to (num_of_Z 2)) = Throw TypeError.
Proof.
  apply (Trace_handlers_on_empty_trace layout (num_of_Z 100)
           (trace_component (trace_props [] false 1000) (num_of_Z 0)
              (num_of_Z 1))
           (zoom_to (num_of_Z 2)) "w").
  reflexivity.
Defined.

Lemma Trace_handleStateChange_within_bounds_witness :
  exists this',
    Trace._handleStateChange layout (num_of_Z 100) (persisted true)
      (zoom_to (num_of_Z 1)) = Normal this'
    /\ Trace.props this' = Trace.props (persisted true)
    /\ (num_of_Z 1000 / size wide_extents
        <=? Trace.zoom (Trace.state this'))%js
       && (Trace.zoom (Trace.state this') <=? num_of_Z 100)%js = true
    /\ Trace.center (Trace.state this')
       = Trace.center (Trace.state (persisted true))
    /\ Trace.dragging (Trace.state this') = false
    /\ Trace.dragMoved (Trace.state this') = false
    /\ Trace.hovered (Trace.state this') = None
    /\ Trace.selection (Trace.state this') = None
    /\ Trace.verticalOffset (Trace.state this') = num_of_Z 0.
Proof.
  eapply (Trace_handleStateChange_within_bounds layout (num_of_Z 100)
            (persisted true) wide_extents (zoom_to (num_of_Z 1)));
    vm_compute; reflexivity.
Defined.

Lemma truncateText_keeps_both_ends_witness :
  Text.truncateText dot letters 2
  = take 2 letters ++ [dot] ++ drop (length letters - 1 - 2) letters
  /\ length (Text.truncateText dot letters 2) = (2 * 2 + 2)%nat.
Proof.
  apply (truncateText_keeps_both_ends dot letters 2). cbn. lia.
Defined.

Lemma fitTextCached_coherent_witness :
  (Text._fitTextCached dot six_a_letter warm_cache 0%nat letters
     (num_of_Z 20)).1
  = Text._fitText dot six_a_letter letters (num_of_Z 20)
  /\ Text.coherent dot six_a_letter (fun _ : nat => letters)
       (Text._fitTextCached dot six_a_letter warm_cache 0%nat letters
          (num_of_Z 20)).2.
Proof.
  apply (fitTextCached_coherent dot six_a_letter (fun _ : nat => letters)
           warm_cache 0%nat (num_of_Z 20)).
  intros [|[|k]] w t E; vm_compute in E;
    [injection E as <- <-; vm_compute; reflexivity
    |injection E as <- <-; vm_compute; reflexivity
    |discriminate E].
Defined.

Lemma drag_gesture_keeps_selection_witness :
  Part000.selection
    (Part000.state (Part000._mouseUp dragged (moved_by 0)))
  = Part000.selection (Part000.state wide_canvas).
Proof.
  apply (drag_gesture_keeps_selection layout toFixed_unused wide_canvas
           dragged (moved_by 0) (moved_by 10) (moved_by 0)).
  vm_compute. reflexivity.
Defined.

End MoreConcrete.
